(** * A shallow embedding of [pyomo/core/base/set.py] (set-algebra core)

    The classes [_SetData], [_InfiniteSet], [_FiniteSetMixin],
    [_FiniteSetData], [_OrderedSetMixin] and [_OrderedSetData] are embedded
    over an arbitrary hashable element type [E].  Python exceptions are the
    [Err] outcome of [res]; methods that mutate an ordered set thread its
    state through a small state/log/exception monad [st]. *)

From Stdlib Require Import ZArith Lia.
From stdpp Require Import base numbers list list_relations gmap sets sorting countable.

Open Scope Z_scope.

(** ** Python outcomes *)

(** The exceptions raised on the paths embedded here. *)
Inductive PyError :=
  | DeveloperError             (* _SetData.__contains__ not overridden *)
  | AttributeError_ranges      (* obj.ranges() on a class without it *)
  | TypeError_not_iterable     (* iter(obj) on a class without __iter__ *)
  | TypeError_len_None         (* len(obj) when __len__ returned None *)
  | ValueError_domain          (* add: value not in the Set's domain *)
  | IndexError_past_last       (* "Cannot index a Set past the last element" *)
  | IndexError_before_first    (* "Cannot index a Set before the first element" *)
  | IndexError_invalid         (* "Valid index values for sets are 1 .. len(set) ..." *)
  | IndexError_list            (* Python list index out of range *)
  | IndexError_not_in_set      (* ord: "item not in Set" *)
  | ZeroDivisionError.         (* x % 0 *)

Inductive res (A : Type) := Ok (a : A) | Err (e : PyError).
Arguments Ok {A} a.
Arguments Err {A} e.

Global Instance res_ret : MRet res := fun _ a => Ok a.
Global Instance res_bind : MBind res := fun _ _ f m =>
  match m with Ok a => f a | Err e => Err e end.


(** ** The class hierarchy and Python's method resolution order *)

(** The classes of [set.py] ([ComponentData] and [object] are its bases from
    outside the file; they define none of the methods looked up below).
    [SetUnion_] stands for [_SetUnion], which [_SetData.union] instantiates. *)
Inductive pyclass :=
  | object_ | ComponentData_ | SetData_ | InfiniteSet_
  | FiniteSetMixin_ | FiniteSetData_ | OrderedSetMixin_ | OrderedSetData_
  | SetUnion_.

Global Instance pyclass_eq_dec : EqDecision pyclass.
Proof. solve_decision. Defined.

(** The base lists of the [class] statements, in source order. *)
Definition bases (c : pyclass) : list pyclass :=
  match c with
  | object_ => []
  | ComponentData_ => [object_]
  | SetData_ => [ComponentData_]                    (* _SetData(ComponentData) *)
  | InfiniteSet_ => [SetData_]                      (* _InfiniteSet(_SetData) *)
  | FiniteSetMixin_ => [object_]                    (* _FiniteSetMixin(object) *)
  | FiniteSetData_ => [SetData_; FiniteSetMixin_]   (* _FiniteSetData(_SetData, _FiniteSetMixin) *)
  | OrderedSetMixin_ => [FiniteSetMixin_]           (* _OrderedSetMixin(_FiniteSetMixin) *)
  | OrderedSetData_ => [FiniteSetData_; OrderedSetMixin_]
  | SetUnion_ => [SetData_]
  end.

Definition in_tail (c : pyclass) (l : list pyclass) : bool :=
  match l with [] => false | _ :: t => bool_decide (c ∈ t) end.

Definition drop_head (c : pyclass) (l : list pyclass) : list pyclass :=
  match l with h :: t => if decide (h = c) then t else l | [] => [] end.

(** The C3 merge: repeatedly take the first head that is in no tail. *)
Fixpoint c3_merge (fuel : nat) (seqs : list (list pyclass)) : option (list pyclass) :=
  match fuel with
  | O => None
  | S fuel' =>
      let seqs := filter (fun l => l <> []) seqs in
      match seqs with
      | [] => Some []
      | _ =>
          match List.find (fun c => forallb (fun l => negb (in_tail c l)) seqs)
                          (omap head seqs) with
          | None => None
          | Some c =>
              rest ← c3_merge fuel' (map (drop_head c) seqs);
              Some (c :: rest)
          end
      end
  end.

(** The C3 linearisation [C.__mro__]. *)
Fixpoint c3_mro (fuel : nat) (c : pyclass) : option (list pyclass) :=
  match fuel with
  | O => None
  | S f =>
      ls ← mapM (c3_mro f) (bases c);
      m ← c3_merge 100%nat (ls ++ [bases c]);
      Some (c :: m)
  end.

Definition mro (c : pyclass) : option (list pyclass) := c3_mro 10%nat c.

(** The methods whose resolution the set algebra depends on. *)
Inductive meth := m_is_finite | m_len | m_contains | m_iter | m_ranges.

(** Which class body defines which method. *)
Definition defines (c : pyclass) (m : meth) : bool :=
  match c, m with
  | SetData_, (m_is_finite | m_len | m_contains) => true
  | InfiniteSet_, (m_contains | m_ranges) => true
  | FiniteSetMixin_, m_is_finite => true
  | FiniteSetData_, (m_contains | m_iter | m_len) => true
  | OrderedSetData_, m_iter => true
  | SetUnion_, (m_is_finite | m_contains) => true
  | _, _ => false
  end.

(** Attribute lookup: the first class of the MRO that defines [m]. *)
Definition resolve (c : pyclass) (m : meth) : option pyclass :=
  l ← mro c; List.find (fun k => defines k m) l.

(** ** Finite and ordered set data *)

Section PySets.
Context {E : Type} `{Countable E}.

(** [pyutilib.misc.flatten_tuple], the canonicalisation applied by [add]. *)
Variable flatten_tuple : E -> E.
(** [pyomo.core.base.misc.sorted_robust]. *)
Variable sorted_robust : list E -> list E.

(** The values of [_OrderedSetData._is_sorted]: [None] or one of the class
    constants [_InsertionOrder], [_Sorted], [_SortNeeded]. *)
Inductive OrderState := InsertionOrder | Sorted | SortNeeded.

Global Instance OrderState_eq_dec : EqDecision OrderState.
Proof. solve_decision. Defined.

(** [logger.warning("Element %s already exists in set %s; no action taken")] *)
Inductive Warning := AlreadyExists (v : E).

(** A domain is tested with [value not in self._domain]; [None] is the
    Python [None] guarded by [self._domain is not None]. *)
Definition Domain := option (E -> bool).

Definition domain_rejects (d : Domain) (v : E) : bool :=
  match d with Some f => negb (f v) | None => false end.

(** [_FiniteSetData]: slots [_values] (a Python [set]) and [_domain]. *)
Record FiniteSetData := {
  fs_values : gset E;
  fs_domain : Domain;
}.

(** [_OrderedSetData]: [_values] is a dict from element to 0-based position,
    [_ordered_values] a list, [_is_sorted] the order state. *)
Record OrderedSetData := {
  os_values : gmap E nat;
  os_ordered_values : list E;
  os_is_sorted : option OrderState;
  os_domain : Domain;
}.

(** [self.parent_component().ordering(self)], supplied by the owning
    component. *)
Variable ordering : OrderedSetData -> option OrderState.

(** A computation on a set of type [S]: new state, emitted warnings and the
    Python outcome.  A raised exception keeps the state reached so far. *)
Definition st (S A : Type) : Type := S -> S * list Warning * res A.

Definition st_ret {S A} (a : A) : st S A := fun s => (s, [], Ok a).
Definition st_bind {S A B} (m : st S A) (k : A -> st S B) : st S B :=
  fun s =>
    match m s with
    | (s1, w1, Ok a) => let '(s2, w2, r) := k a s1 in (s2, w1 ++ w2, r)
    | (s1, w1, Err e) => (s1, w1, Err e)
    end.
Definition st_raise {S A} (e : PyError) : st S A := fun s => (s, [], Err e).

Notation "'let!' x := m 'in' k" := (st_bind m (fun x => k))
  (at level 200, x name, m at level 100, k at level 200).

(** *** [_FiniteSetData.add] *)
Definition fs_add (value : E) : st FiniteSetData unit := fun s =>
  if domain_rejects (fs_domain s) value then (s, [], Err ValueError_domain)
  else
    let v := flatten_tuple value in
    let w := if decide (v ∈ fs_values s) then [AlreadyExists v] else [] in
    ({| fs_values := {[v]} ∪ fs_values s; fs_domain := fs_domain s |}, w, Ok tt).

(** *** [_OrderedSetData] *)

(** [self._is_sorted in self._DataOK] *)
Definition data_ok (s : OrderedSetData) : bool :=
  match os_is_sorted s with
  | Some InsertionOrder | Some Sorted => true
  | _ => false
  end.

(** [dict((j, i) for i, j in enumerate(l))]: later keys overwrite earlier. *)
Fixpoint enum_dict_aux (i : nat) (l : list E) (m : gmap E nat) : gmap E nat :=
  match l with
  | [] => m
  | j :: l' => enum_dict_aux (S i) l' (<[j := i]> m)
  end.
Definition enum_dict (l : list E) : gmap E nat := enum_dict_aux 0 l ∅.

(** [_OrderedSetData._sort] *)
Definition sort_ (s : OrderedSetData) : OrderedSetData :=
  let s1 :=
    match os_is_sorted s with
    | None => {| os_values := os_values s;
                 os_ordered_values := os_ordered_values s;
                 os_is_sorted := ordering s;
                 os_domain := os_domain s |}
    | Some _ => s
    end in
  if decide (os_is_sorted s1 = Some SortNeeded) then
    let ov := sorted_robust (os_ordered_values s1) in
    {| os_values := enum_dict ov;
       os_ordered_values := ov;
       os_is_sorted := Some Sorted;
       os_domain := os_domain s1 |}
  else s1.

(** [if self._is_sorted not in self._DataOK: self._sort()] *)
Definition ensure_sorted (s : OrderedSetData) : OrderedSetData :=
  if data_ok s then s else sort_ s.

(** [len(self)], i.e. [_FiniteSetData.__len__] on the dict [_values]. *)
Definition os_len_of (s : OrderedSetData) : Z := Z.of_nat (size (os_values s)).

Definition os_len : st OrderedSetData Z := fun s => (s, [], Ok (os_len_of s)).

(** Python list indexing [l[i]], negative indices counting from the end. *)
Definition py_list_get (l : list E) (i : Z) : res E :=
  let j := if i <? 0 then Z.of_nat (length l) + i else i in
  if j <? 0 then Err IndexError_list
  else match l !! Z.to_nat j with
       | Some x => Ok x
       | None => Err IndexError_list
       end.

(** [_OrderedSetData.__getitem__] *)
Definition os_getitem (item : Z) : st OrderedSetData E := fun s0 =>
  let s := ensure_sorted s0 in
  let n := os_len_of s in
  let r :=
    if 1 <=? item then
      if n <? item then Err IndexError_past_last
      else py_list_get (os_ordered_values s) (item - 1)
    else if item <? 0 then
      if n + item <? 0 then Err IndexError_before_first
      else py_list_get (os_ordered_values s) item
    else Err IndexError_invalid in
  (s, [], r).

(** [_OrderedSetData.ord] *)
Definition os_ord (item : E) : st OrderedSetData Z := fun s0 =>
  let s := ensure_sorted s0 in
  match os_values s !! item with
  | Some i => (s, [], Ok (Z.of_nat i + 1))
  | None => (s, [], Err IndexError_not_in_set)
  end.

(** [_OrderedSetMixin.next]: [self[self.ord(item) + step]] *)
Definition os_next (item : E) (step : Z) : st OrderedSetData E :=
  let! position := os_ord item in
  os_getitem (position + step).

(** [_OrderedSetMixin.nextw]: [self[(position+step-1) % len(self) + 1]] *)
Definition os_nextw (item : E) (step : Z) : st OrderedSetData E :=
  let! position := os_ord item in
  let! n := os_len in
  if decide (n = 0) then st_raise ZeroDivisionError
  else os_getitem ((position + step - 1) mod n + 1).

(** [_OrderedSetMixin.prev] and [prevw] *)
Definition os_prev (item : E) (step : Z) : st OrderedSetData E :=
  os_next item (- step).
Definition os_prevw (item : E) (step : Z) : st OrderedSetData E :=
  os_nextw item (- step).

(** [_OrderedSetData.add] *)
Definition os_add (value : E) : st OrderedSetData unit := fun s =>
  if domain_rejects (os_domain s) value then (s, [], Err ValueError_domain)
  else
    let v := flatten_tuple value in
    if decide (v ∈ dom (os_values s)) then (s, [AlreadyExists v], Ok tt)
    else
      ({| os_values := <[v := size (os_values s)]> (os_values s);
          os_ordered_values := os_ordered_values s ++ [v];
          os_is_sorted :=
            if decide (os_is_sorted s = Some Sorted) then Some SortNeeded
            else os_is_sorted s;
          os_domain := os_domain s |}, [], Ok tt).

(** ** The set algebra of [_SetData] *)

(** The interface of the range descriptors held by an [_InfiniteSet]
    ([_InfiniteRange], whose class body is not in [set.py]): membership,
    [isdisjoint], [issubset] and [==]. *)
Class RangeOps (R : Type) := {
  range_contains : R -> E -> bool;
  range_isdisjoint : R -> R -> bool;
  range_issubset : R -> R -> bool;
  range_eqb : R -> R -> bool;
}.

Context {R : Type} `{!RangeOps R}.

(** The methods a [_SetData] method calls on [self] and [other] through
    dynamic dispatch: [is_finite()], [__contains__], [__iter__], [__len__]
    and [ranges()]. *)
Class SetProtocol (O : Type) := {
  sp_is_finite : O -> bool;
  sp_contains : O -> E -> res bool;
  sp_iter : O -> res (list E);
  sp_len : O -> res (option nat);
  sp_ranges : O -> res (list R);
}.

(** Python tuple [==] on two [ranges()] tuples. *)
Fixpoint tuple_eqb (xs ys : list R) : bool :=
  match xs, ys with
  | [], [] => true
  | x :: xs', y :: ys' => range_eqb x y && tuple_eqb xs' ys'
  | _, _ => false
  end.

Section Methods.
Context {O : Type} `{!SetProtocol O}.

(** The builtin [len(o)], which raises when [__len__] returns [None]. *)
Definition py_len (o : O) : res nat :=
  n ← sp_len o;
  match n with Some k => Ok k | None => Err TypeError_len_None end.

(** [for x in xs: if x not in other: return False] ... [return True] *)
Fixpoint all_in (other : O) (xs : list E) : res bool :=
  match xs with
  | [] => Ok true
  | x :: xs' => b ← sp_contains other x; if (b : bool) then all_in other xs' else Ok false
  end.

(** [for x in xs: if x in other: return False] ... [return True] *)
Fixpoint none_in (other : O) (xs : list E) : res bool :=
  match xs with
  | [] => Ok true
  | x :: xs' => b ← sp_contains other x; if (b : bool) then Ok false else none_in other xs'
  end.

(** [all(r.isdisjoint(s) for r in rs for s in other.ranges())]: [rs] is
    evaluated when the generator is built, [other.ranges()] once per [r],
    and [all] stops at the first [False]. *)
Fixpoint all_pairs_disjoint (rs : list R) (other : O) : res bool :=
  match rs with
  | [] => Ok true
  | r :: rs' =>
      ss ← sp_ranges other;
      if forallb (range_isdisjoint r) ss then all_pairs_disjoint rs' other
      else Ok false
  end.

(** [for r in rs: if not any(r.issubset(s) for s in other.ranges()): return False] *)
Fixpoint ranges_covered (rs : list R) (other : O) : res bool :=
  match rs with
  | [] => Ok true
  | r :: rs' =>
      ss ← sp_ranges other;
      if existsb (range_issubset r) ss then ranges_covered rs' other else Ok false
  end.

(** [_SetData.__eq__] for a Set [other] ([self is other] returns [True]
    early; every branch below also yields [True] then). *)
Definition set_eq (self other : O) : res bool :=
  let other_is_finite := sp_is_finite other in
  if sp_is_finite self then
    if negb other_is_finite then Ok false
    else
      n1 ← py_len self; n2 ← py_len other;
      if decide (n1 = n2) then (xs ← sp_iter self; all_in other xs) else Ok false
  else if other_is_finite then Ok false
  else
    rs1 ← sp_ranges self; rs2 ← sp_ranges other;
    Ok (tuple_eqb rs1 rs2).

(** [_SetData.isdisjoint] for a Set [other]; [Some b] is a Python [bool],
    [None] the Python [None] of a function that falls off its end. *)
Definition set_isdisjoint (self other : O) : res (option bool) :=
  let other_is_finite := sp_is_finite other in
  if sp_is_finite self then
    xs ← sp_iter self; b ← none_in other xs; Ok (Some b)
  else if other_is_finite then
    ys ← sp_iter other; b ← none_in self ys; Ok (Some b)
  else
    (* the value of all(...) is computed and discarded: no return *)
    rs ← sp_ranges self; _ ← all_pairs_disjoint rs other; Ok None.

(** [_SetData.issubset] for a Set [other]. *)
Definition set_issubset (self other : O) : res bool :=
  let other_is_finite := sp_is_finite other in
  if sp_is_finite self then
    xs ← sp_iter self; all_in other xs
  else if other_is_finite then Ok false
  else
    rs ← sp_ranges self; ranges_covered rs other.

End Methods.

(** *** The concrete set objects *)

(** An instance of [_InfiniteSet], [_FiniteSetData], [_OrderedSetData], or
    of the [_SetUnion] built by [_SetData.union]. *)
Inductive SetObj :=
  | OInfinite (rs : list R)
  | OFinite (fs : FiniteSetData)
  | OOrdered (os : OrderedSetData)
  | OUnion (a b : SetObj).

Definition class_of (o : SetObj) : pyclass :=
  match o with
  | OInfinite _ => InfiniteSet_
  | OFinite _ => FiniteSetData_
  | OOrdered _ => OrderedSetData_
  | OUnion _ _ => SetUnion_
  end.

(** Modelled from the spec: [_SetUnion.is_finite] ([_SetUnion] is not defined
    under src/): a union is finite iff both operands are finite. *)
Definition union_is_finite (a_fin b_fin : bool) : bool := a_fin && b_fin.

(** Modelled from the spec: [_SetUnion.__contains__]: [v in L or v in R]. *)
Definition union_contains (in_a : res bool) (in_b : unit -> res bool) : res bool :=
  a ← in_a; if (a : bool) then Ok true else in_b tt.

(** [o.is_finite()]: [_SetData.is_finite] returns [False],
    [_FiniteSetMixin.is_finite] returns [True]. *)
Fixpoint obj_is_finite (o : SetObj) : bool :=
  match resolve (class_of o) m_is_finite, o with
  | Some SetData_, _ => false
  | Some FiniteSetMixin_, _ => true
  | Some SetUnion_, OUnion a b => union_is_finite (obj_is_finite a) (obj_is_finite b)
  | _, _ => false
  end.

(** [v in o]: [_SetData.__contains__] raises [DeveloperError];
    [_InfiniteSet.__contains__] scans the ranges; [_FiniteSetData.__contains__]
    tests [item in self._values] (a set, or the keys of a dict). *)
Fixpoint obj_contains (o : SetObj) (v : E) : res bool :=
  match resolve (class_of o) m_contains, o with
  | Some InfiniteSet_, OInfinite rs => Ok (existsb (fun r => range_contains r v) rs)
  | Some FiniteSetData_, OFinite fs => Ok (bool_decide (v ∈ fs_values fs))
  | Some FiniteSetData_, OOrdered os => Ok (bool_decide (v ∈ dom (os_values os)))
  | Some SetUnion_, OUnion a b =>
      union_contains (obj_contains a v) (fun _ => obj_contains b v)
  | _, _ => Err DeveloperError
  end.

(** [iter(o)]: [_FiniteSetData.__iter__] iterates the Python set (in an
    unspecified order); [_OrderedSetData.__iter__] sorts if needed and
    iterates [_ordered_values] (the state written back by [_sort] is not
    threaded through the boolean algebra). *)
Definition obj_iter (o : SetObj) : res (list E) :=
  match resolve (class_of o) m_iter, o with
  | Some FiniteSetData_, OFinite fs => Ok (elements (fs_values fs))
  | Some OrderedSetData_, OOrdered os => Ok (os_ordered_values (ensure_sorted os))
  | _, _ => Err TypeError_not_iterable
  end.

(** [o.__len__()]: [_SetData.__len__] returns [None];
    [_FiniteSetData.__len__] returns [len(self._values)]. *)
Definition obj_len (o : SetObj) : res (option nat) :=
  match resolve (class_of o) m_len, o with
  | Some SetData_, _ => Ok None
  | Some FiniteSetData_, OFinite fs => Ok (Some (size (fs_values fs)))
  | Some FiniteSetData_, OOrdered os => Ok (Some (size (os_values os)))
  | _, _ => Err TypeError_len_None
  end.

(** [o.ranges()]: only [_InfiniteSet] has it. *)
Definition obj_ranges (o : SetObj) : res (list R) :=
  match resolve (class_of o) m_ranges, o with
  | Some InfiniteSet_, OInfinite rs => Ok rs
  | _, _ => Err AttributeError_ranges
  end.

Global Instance SetObj_protocol : SetProtocol SetObj := {
  sp_is_finite := obj_is_finite;
  sp_contains := obj_contains;
  sp_iter := obj_iter;
  sp_len := obj_len;
  sp_ranges := obj_ranges;
}.

(** [_SetData.union(self, *args)]: [tmp = _SetUnion(tmp, arg)] for each arg. *)
Definition set_union (self : SetObj) (args : list SetObj) : SetObj :=
  fold_left (fun tmp arg => OUnion tmp arg) args self.

End PySets.

(** ** Concrete instances used at concrete inputs *)

(** Modelled from the spec: [_InfiniteRange] (not defined under src/), "an
    immutable descriptor of a contiguous ... interval of values (bounded or
    unbounded), with a membership test", here a closed integer interval whose
    bounds may be absent (unbounded). *)
Record ZRange := { rg_lo : option Z; rg_hi : option Z }.

Global Instance ZRange_eq_dec : EqDecision ZRange.
Proof. solve_decision. Defined.

Definition lo_le (a : option Z) (v : Z) : bool :=
  match a with Some a => a <=? v | None => true end.
Definition le_hi (v : Z) (b : option Z) : bool :=
  match b with Some b => v <=? b | None => true end.

(** Modelled from the spec: the membership test of a range. *)
Definition zr_contains (r : ZRange) (v : Z) : bool :=
  lo_le (rg_lo r) v && le_hi v (rg_hi r).

(** Modelled from the spec: two intervals are disjoint when one ends before
    the other starts. *)
Definition zr_isdisjoint (r s : ZRange) : bool :=
  match rg_hi r, rg_lo s with Some b, Some a => b <? a | _, _ => false end
  || match rg_hi s, rg_lo r with Some b, Some a => b <? a | _, _ => false end.

(** Modelled from the spec: interval inclusion. *)
Definition zr_issubset (r s : ZRange) : bool :=
  match rg_lo s with None => true | Some a => match rg_lo r with Some c => a <=? c | None => false end end
  && match rg_hi s with None => true | Some b => match rg_hi r with Some c => c <=? b | None => false end end.

(** Modelled from the spec: descriptors are immutable values, equal when
    their bounds are. *)
Definition zr_eqb (r s : ZRange) : bool := bool_decide (r = s).

Global Instance ZRange_ops : @RangeOps Z ZRange := {
  range_contains := zr_contains;
  range_isdisjoint := zr_isdisjoint;
  range_issubset := zr_issubset;
  range_eqb := zr_eqb;
}.

(** Modelled from the spec: the default domain [Any], "a universal 'accept
    everything' domain". *)
Definition Any {E : Type} : Domain (E:=E) := Some (fun _ => true).

(** [sorted_robust] on integers: a sort of the list. *)
Definition sorted_Z : list Z -> list Z := merge_sort (≤)%Z.

(** An owning component that keeps insertion order. *)
Definition insertion_ordering {E : Type} `{Countable E}
  (_ : OrderedSetData (E:=E)) : option OrderState := Some InsertionOrder.

(** The dispatch of the concrete set classes over integers. *)
Definition ZSetObj : Type := @SetObj Z _ _ ZRange.

Definition Zproto : SetProtocol (E:=Z) (R:=ZRange) ZSetObj :=
  SetObj_protocol sorted_Z insertion_ordering.

(** An empty [_FiniteSetData] with domain [d]. *)
Definition fs_empty {E : Type} `{Countable E} (d : Domain (E:=E)) : FiniteSetData (E:=E) :=
  {| fs_values := ∅; fs_domain := d |}.

(** The state reached by a sequence of [add] calls, ignoring their outcomes. *)
Definition fs_add_all {E : Type} `{Countable E} (flatten_tuple : E -> E)
    (vs : list E) (s : FiniteSetData (E:=E)) : FiniteSetData (E:=E) :=
  fold_left (fun s v => (fs_add flatten_tuple v s).1.1) vs s.

(** Integers are not tuples: [flatten_tuple] returns them unchanged. *)
Definition flatten_int (z : Z) : Z := z.

(** The ranges [[0, +inf)], [[0, 1]], [[5, 6]] and [(-inf, -1]]. *)
Definition nonneg : ZRange := {| rg_lo := Some 0; rg_hi := None |}.
Definition r01 : ZRange := {| rg_lo := Some 0; rg_hi := Some 1 |}.
Definition r56 : ZRange := {| rg_lo := Some 5; rg_hi := Some 6 |}.
Definition rneg : ZRange := {| rg_lo := None; rg_hi := Some (-1) |}.

(** The objects of a finite set class that lists [_FiniteSetMixin] before
    [_SetData] (so [is_finite] resolves to the mixin), next to infinite sets. *)
Inductive MixinFirstObj :=
  | MFinite (values : gset Z)
  | MInfinite (rs : list ZRange).

Definition mixin_first_proto : SetProtocol (E:=Z) (R:=ZRange) MixinFirstObj := {|
  sp_is_finite := fun o => match o with MFinite _ => true | MInfinite _ => false end;
  sp_contains := fun o v =>
    match o with
    | MFinite vs => Ok (bool_decide (v ∈ vs))
    | MInfinite rs => Ok (existsb (fun r => zr_contains r v) rs)
    end;
  sp_iter := fun o =>
    match o with MFinite vs => Ok (elements vs) | MInfinite _ => Err TypeError_not_iterable end;
  sp_len := fun o =>
    match o with MFinite vs => Ok (Some (size vs)) | MInfinite _ => Ok None end;
  sp_ranges := fun o =>
    match o with MFinite _ => Err AttributeError_ranges | MInfinite rs => Ok rs end;
|}.

(** *** Ordered sets: the invariant and concrete states *)

(** The consistency of [_values] and [_ordered_values]: no duplicates, and
    [_values[x] == i] exactly when [_ordered_values[i] == x]. *)
Definition os_wf {E : Type} `{Countable E} (s : OrderedSetData (E:=E)) : Prop :=
  NoDup (os_ordered_values s) /\
  forall x i, os_values s !! x = Some i <-> os_ordered_values s !! i = Some x.

(** [_OrderedSetData.__init__]: empty, [_is_sorted = None]. *)
Definition os_empty {E : Type} `{Countable E} (d : Domain (E:=E)) : OrderedSetData (E:=E) :=
  {| os_values := ∅; os_ordered_values := []; os_is_sorted := None; os_domain := d |}.

Definition os_add_all {E : Type} `{Countable E} (flatten_tuple : E -> E)
    (vs : list E) (s : OrderedSetData (E:=E)) : OrderedSetData (E:=E) :=
  fold_left (fun s v => (os_add flatten_tuple v s).1.1) vs s.

(** [S = OrderedSet(); S.add(1); S.add(2); S.add(3)] *)
Definition os123 : OrderedSetData (E:=Z) := os_add_all flatten_int [1; 2; 3] (os_empty Any).

(** A domain given by a [_FiniteSetData]: [value in domain] tests
    [value in domain._values]. *)
Definition domain_of_set {E : Type} `{Countable E} (d : FiniteSetData (E:=E)) : Domain (E:=E) :=
  Some (fun v => bool_decide (v ∈ fs_values d)).

(** Python integers and (nested) tuples of them, as [gen_tree Z]: a leaf is
    an [int], a node a [tuple]. *)
Abbreviation pyval := (gen_tree Z).
Definition PInt (z : Z) : pyval := GenLeaf z.
Definition PTuple (vs : list pyval) : pyval := GenNode 0 vs.

(** The items of a value once all nested tuples are spliced in. *)
Fixpoint flat_items (v : pyval) : list pyval :=
  match v with
  | GenLeaf z => [GenLeaf z]
  | GenNode _ ts => concat (map flat_items ts)
  end.

(** [pyutilib.misc.flatten_tuple]: a non-tuple is returned unchanged, a tuple
    becomes the flat tuple of its items. *)
Definition flatten_tuple_py (v : pyval) : pyval :=
  match v with
  | GenLeaf z => GenLeaf z
  | GenNode _ ts => PTuple (concat (map flat_items ts))
  end.

Definition t123 : pyval := PTuple [PInt 1; PInt 2; PInt 3].
Definition t1_23 : pyval := PTuple [PInt 1; PTuple [PInt 2; PInt 3]].

(** [D = FiniteSet(); D.add((1,2,3))] *)
Definition dom123 : FiniteSetData (E:=pyval) := fs_add_all flatten_tuple_py [t123] (fs_empty Any).
(** [S = FiniteSet(domain=D); S.add((1,2,3))] *)
Definition set123 : FiniteSetData (E:=pyval) :=
  fs_add_all flatten_tuple_py [t123] (fs_empty (domain_of_set dom123)).

(** [S = FiniteSet(domain=Z); S.add(1); S.add(2)] with the domain [0 <= v]. *)
Definition fs12 : FiniteSetData (E:=Z) :=
  fs_add_all flatten_int [1; 2] (fs_empty (Some (fun v => 0 <=? v))).

(** The ordered counterpart, a [_OrderedSetData] whose [_domain] is [0 <= v]. *)
Definition os12_nonneg : OrderedSetData (E:=Z) :=
  os_add_all flatten_int [1; 2] (os_empty (Some (fun v => 0 <=? v))).

(** ** Further methods of [set.py] *)

Section MoreMethods.
Context {E : Type} {R : Type} {RangeOps0 : @RangeOps E R}.
Context {O : Type} {SetProtocol0 : @SetProtocol E R O}.

(** [for r in rs: if not any(s.issubset(r) for s in other.ranges()): return False] *)
Fixpoint ranges_cover_some (rs : list R) (other : O) : res bool :=
  match rs with
  | [] => Ok true
  | r :: rs' =>
      ss ← sp_ranges other;
      if existsb (fun s => range_issubset s r) ss then ranges_cover_some rs' other
      else Ok false
  end.

(** [_SetData.issuperset] for a Set [other]. *)
Definition set_issuperset (self other : O) : res bool :=
  let other_is_finite := sp_is_finite other in
  if other_is_finite then
    ys ← sp_iter other; all_in self ys
  else if sp_is_finite self then Ok false
  else
    rs ← sp_ranges self; ranges_cover_some rs other.

(** [self == other]: [_SetData.__eq__] first returns [True] when [self is
    other]; [same] tells whether the two operands are the same object. *)
Definition py_eq (same : bool) (self other : O) : res bool :=
  if same then Ok true else set_eq self other.

(** [_SetData.__lt__]: [self <= other and not self == other], where [<=] is
    [issubset]. *)
Definition set_lt (same : bool) (self other : O) : res bool :=
  b ← set_issubset self other;
  if (b : bool) then (e ← py_eq same self other; Ok (negb e)) else Ok false.

(** [_SetData.__gt__]: [self >= other and not self == other], where [>=] is
    [issuperset]. *)
Definition set_gt (same : bool) (self other : O) : res bool :=
  b ← set_issuperset self other;
  if (b : bool) then (e ← py_eq same self other; Ok (negb e)) else Ok false.

End MoreMethods.

Section MoreObjects.
Context {E : Type} `{Countable E} {R : Type}.

(** The arguments of [_InfiniteSet( *ranges)]: an [_InfiniteRange] ([inl r])
    or any other object ([inr a]). *)
Fixpoint check_ranges {A : Type} (args : list (R + A)) : option (list R) :=
  match args with
  | [] => Some []
  | inl r :: args' => rs ← check_ranges args'; Some (r :: rs)
  | inr _ :: _ => None
  end.

(** [_InfiniteSet.__init__]: [TypeError] (here [None]) unless every argument
    is an [_InfiniteRange]; [self._ranges = ranges] otherwise. *)
Definition infinite_set_init {A : Type} (args : list (R + A)) : option (@SetObj E _ _ R) :=
  rs ← check_ranges args; Some (OInfinite rs).

(** A [_FiniteSetData] or [_OrderedSetData] instance. *)
Definition is_data_obj (o : @SetObj E _ _ R) : bool :=
  match o with OFinite _ | OOrdered _ => true | _ => false end.

End MoreObjects.

Notation "'let!' x := m 'in' k" := (st_bind m (fun x => k))
  (at level 200, x name, m at level 100, k at level 200).

Section MoreOrdered.
Context {E : Type} `{Countable E}.
Variable sorted_robust : list E -> list E.
Variable ordering : OrderedSetData (E:=E) -> option OrderState.

(** [_OrderedSetData.data] (also [ordered()], and what [__iter__] iterates):
    sort if needed, then [tuple(self._ordered_values)]. *)
Definition os_data : st (E:=E) OrderedSetData (list E) := fun s0 =>
  let s := ensure_sorted sorted_robust ordering s0 in
  (s, [], Ok (os_ordered_values s)).

(** [_OrderedSetData.sorted] *)
Definition os_sorted : st (E:=E) OrderedSetData (list E) :=
  let! data := os_data in
  fun s => (s, [], Ok (if decide (os_is_sorted s = Some Sorted) then data
                       else sorted_robust data)).

(** [_OrderedSetMixin.first]: [self[1]] *)
Definition os_first : st (E:=E) OrderedSetData E := os_getitem sorted_robust ordering 1.

(** [_OrderedSetMixin.last]: [self[len(self)]] *)
Definition os_last : st (E:=E) OrderedSetData E :=
  let! n := os_len in os_getitem sorted_robust ordering n.

End MoreOrdered.

(** The values of [l] not in [seen] and not earlier in [l], in order: the
    sequence an insertion-ordered set appends. *)
Fixpoint new_in_order {E : Type} `{EqDecision E} (seen l : list E) : list E :=
  match l with
  | [] => []
  | x :: l' =>
      if decide (x ∈ seen) then new_in_order seen l'
      else x :: new_in_order (seen ++ [x]) l'
  end.

(** [Sorted Rel l] on lists (the constructor [Sorted] of [OrderState]
    shadows the name). *)
Abbreviation list_sorted := Stdlib.Sorting.Sorted.Sorted.

(** The ordered-set invariant of a sorting component: a set marked
    [_Sorted] holds its values in order. *)
Definition sort_inv {E : Type} `{Countable E} (Rel : relation E)
    (s : OrderedSetData (E:=E)) : Prop :=
  os_is_sorted s = Some Sorted -> list_sorted Rel (os_ordered_values s).

(** An owning component that asks for its sets to be sorted. *)
Definition sort_needed_ordering {E : Type} `{Countable E}
  (_ : OrderedSetData (E:=E)) : option OrderState := Some SortNeeded.

(** [S = OrderedSet(); S.add(3); S.add(1); S.add(2)] *)
Definition os312 : OrderedSetData (E:=Z) := os_add_all flatten_int [3; 1; 2] (os_empty Any).

(** ** Lemmas on the set algebra *)

Section AlgebraLemmas.
Context {E : Type} {R : Type} `{!@RangeOps E R}.
Context {O : Type} `{!@SetProtocol E R O}.

Lemma all_in_true (other : O) (xs : list E) :
  all_in other xs = Ok true <-> Forall (fun x => sp_contains other x = Ok true) xs.
Proof.
  induction xs as [|x xs IH]; simpl.
  - split; [constructor | reflexivity].
  - destruct (sp_contains other x) as [[|]|e] eqn:Hx; simpl.
    + rewrite IH. split.
      * intros Hf. constructor; assumption.
      * intros Hf. inversion Hf; assumption.
    + split; [discriminate | intros Hf; inversion Hf; congruence].
    + split; [discriminate | intros Hf; inversion Hf; congruence].
Qed.

Lemma tuple_eqb_Forall2 (xs ys : list R) :
  tuple_eqb xs ys = true <-> Forall2 (fun r s => range_eqb r s = true) xs ys.
Proof.
  revert ys; induction xs as [|x xs IH]; intros [|y ys]; simpl.
  - split; [constructor | reflexivity].
  - split; [discriminate | intros Hf; inversion Hf].
  - split; [discriminate | intros Hf; inversion Hf].
  - rewrite andb_true_iff, IH. split.
    + intros [Hxy Hr]. constructor; assumption.
    + intros Hf. inversion Hf; subst. split; assumption.
Qed.

End AlgebraLemmas.

Section ConcreteAlgebraLemmas.
Context {E : Type} `{Countable E} {R : Type} `{!@RangeOps E R}.
Variable sorted_robust : list E -> list E.
Variable ordering : OrderedSetData (E:=E) -> option OrderState.
Local Abbreviation Obj := (@SetObj E _ _ R).
Local Instance proto : @SetProtocol E R Obj := SetObj_protocol sorted_robust ordering.

Lemma infinite_is_finite (rs : list R) : obj_is_finite (OInfinite (E:=E) rs) = false.
Proof. reflexivity. Qed.

Lemma union_is_finite_unfold (a b : Obj) :
  obj_is_finite (OUnion a b) = obj_is_finite a && obj_is_finite b.
Proof. reflexivity. Qed.

Lemma set_union_is_finite (A : Obj) (args : list Obj) :
  obj_is_finite (set_union A args) = forallb obj_is_finite (A :: args).
Proof.
  revert A; induction args as [|B args IH]; intros A; simpl.
  - rewrite andb_true_r. reflexivity.
  - unfold set_union in *; simpl. rewrite IH. simpl.
    unfold union_is_finite. rewrite andb_assoc. reflexivity.
Qed.

Lemma all_pairs_disjoint_infinite (rs ss : list R) :
  exists b, all_pairs_disjoint rs (OInfinite (E:=E) ss) = Ok b.
Proof.
  induction rs as [|r rs IH]; simpl.
  - eauto.
  - destruct (forallb (range_isdisjoint r) ss); [exact IH | eauto].
Qed.

End ConcreteAlgebraLemmas.

(** ** Claims *)


(** C2: for two infinite sets, [S.isdisjoint(T)] evaluates
    [all(r.isdisjoint(s) ...)] but has no [return]: it returns [None], never
    a boolean, whatever the ranges. *)
Theorem isdisjoint_infinite_returns_None {E : Type} `{Countable E} {R : Type}
    `{!@RangeOps E R} (sorted_robust : list E -> list E)
    (ordering : OrderedSetData (E:=E) -> option OrderState) (rs1 rs2 : list R) :
  set_isdisjoint (SetProtocol0:=SetObj_protocol sorted_robust ordering)
    (OInfinite (E:=E) rs1) (OInfinite rs2) = Ok None.
Proof.
  unfold set_isdisjoint. simpl.
  destruct (all_pairs_disjoint_infinite sorted_robust ordering rs1 rs2) as [b Hb].
  unfold proto in Hb. rewrite Hb. reflexivity.
Qed.

(** C3: [A.union(B)] builds [_SetUnion(A, B)] (a total operation), and its
    [is_finite()] is [True] iff [A.is_finite()] and [B.is_finite()] are. *)
Theorem union_finite_iff_both_finite {E : Type} `{Countable E} {R : Type}
    (A B : @SetObj E _ _ R) :
  set_union A [B] = OUnion A B /\
  (obj_is_finite (set_union A [B]) = true <->
   obj_is_finite A = true /\ obj_is_finite B = true).
Proof.
  split; [reflexivity |].
  rewrite set_union_is_finite. simpl. rewrite andb_true_r, andb_true_iff. tauto.
Qed.

(** C4 (counterexample): [len] on the infinite set over [[0, +inf)] does not
    fail: [__len__] returns [None]. *)
Lemma infinite_len_returns_value :
  obj_len (E:=Z) (OInfinite [nonneg]) = Ok None.
Proof. reflexivity. Qed.

(** C4 (amended): for every [_InfiniteSet], [__len__] is [_SetData.__len__]
    and returns [None] (undefined) without raising; the builtin [len()] then
    raises [TypeError] because [None] is not an integer. *)
Theorem infinite_len_is_None {E : Type} `{Countable E} {R : Type}
    `{!@RangeOps E R} (sorted_robust : list E -> list E)
    (ordering : OrderedSetData (E:=E) -> option OrderState) (rs : list R) :
  obj_len (OInfinite (E:=E) rs) = Ok None /\
  py_len (SetProtocol0:=SetObj_protocol sorted_robust ordering)
    (OInfinite (E:=E) rs) = Err TypeError_len_None.
Proof. split; reflexivity. Qed.

(** C7 (counterexample): two infinite sets listing the same two ranges in
    opposite orders compare unequal. *)
Lemma infinite_eq_order_sensitive :
  (forall r, r ∈ [r01; r56] <-> r ∈ [r56; r01]) /\
  set_eq (SetProtocol0:=Zproto) (OInfinite [r01; r56]) (OInfinite [r56; r01]) = Ok false.
Proof.
  split.
  - intros r. rewrite !elem_of_cons, elem_of_nil. tauto.
  - reflexivity.
Qed.

(** C7 (amended): two infinite sets are equal iff their [ranges()] tuples are
    equal as sequences: same length, and equal ranges position by position. *)
Theorem infinite_eq_compares_sequences {E : Type} `{Countable E} {R : Type}
    `{!@RangeOps E R} (sorted_robust : list E -> list E)
    (ordering : OrderedSetData (E:=E) -> option OrderState) (rs1 rs2 : list R) :
  set_eq (SetProtocol0:=SetObj_protocol sorted_robust ordering)
    (OInfinite (E:=E) rs1) (OInfinite rs2) = Ok true <->
  Forall2 (fun r s => range_eqb r s = true) rs1 rs2.
Proof.
  unfold set_eq. simpl. rewrite <- tuple_eqb_Forall2.
  split; [intros Heq; injection Heq; auto | intros ->; reflexivity].
Qed.

(** ** Lemmas on ordered sets *)

Section OrderedLemmas.
Context {E : Type} `{Countable E}.
Variable sorted_robust : list E -> list E.
Variable ordering : OrderedSetData (E:=E) -> option OrderState.
Hypothesis sorted_perm : forall l, sorted_robust l ≡ₚ l.

Lemma enum_dict_aux_notin (x : E) (k : nat) (l : list E) (m : gmap E nat) :
  x ∉ l -> enum_dict_aux k l m !! x = m !! x.
Proof.
  revert k m; induction l as [|j l IH]; intros k m Hx; simpl; [reflexivity|].
  rewrite elem_of_cons in Hx.
  rewrite IH by tauto. apply lookup_insert_ne. intros ->. tauto.
Qed.

Lemma enum_dict_aux_at (x : E) (k i : nat) (l : list E) (m : gmap E nat) :
  NoDup l -> l !! i = Some x -> enum_dict_aux k l m !! x = Some (k + i)%nat.
Proof.
  revert k i m; induction l as [|j l IH]; intros k i m Hnd Hi; simpl; [discriminate|].
  apply list.NoDup_cons in Hnd as [Hj Hnd].
  destruct i as [|i]; simpl in Hi.
  - injection Hi as <-. rewrite enum_dict_aux_notin by assumption.
    rewrite lookup_insert_eq. f_equal. lia.
  - rewrite (IH (S k) i) by assumption. f_equal. lia.
Qed.

Lemma enum_dict_spec (l : list E) :
  NoDup l -> forall x i, enum_dict l !! x = Some i <-> l !! i = Some x.
Proof.
  intros Hnd x i. unfold enum_dict. split.
  - intros Hx. destruct (decide (x ∈ l)) as [Hin|Hnin].
    + apply list_elem_of_lookup in Hin as [j Hj].
      rewrite (enum_dict_aux_at x 0 j) in Hx by assumption.
      injection Hx as <-. exact Hj.
    + rewrite enum_dict_aux_notin in Hx by assumption.
      rewrite lookup_empty in Hx. discriminate.
  - intros Hi. rewrite (enum_dict_aux_at x 0 i) by assumption. reflexivity.
Qed.

Lemma os_wf_size (s : OrderedSetData (E:=E)) :
  os_wf s -> size (os_values s) = length (os_ordered_values s).
Proof.
  intros [Hnd Hiff].
  assert (Hd : dom (os_values s) = list_to_set (C:=gset E) (os_ordered_values s)).
  { apply leibniz_equiv. intros x.
    rewrite elem_of_dom, elem_of_list_to_set, list_elem_of_lookup. split.
    - intros [i Hi]. exists i. apply Hiff. exact Hi.
    - intros [i Hi]. exists i. apply Hiff. exact Hi. }
  rewrite <- size_dom, Hd. apply size_list_to_set. exact Hnd.
Qed.

Lemma sort_wf (s : OrderedSetData (E:=E)) :
  os_wf s -> os_wf (sort_ sorted_robust ordering s).
Proof.
  intros Hwf. unfold sort_.
  destruct (os_is_sorted s) as [st|] eqn:Hst; simpl;
    [destruct (decide (os_is_sorted s = Some SortNeeded)) as [_|_]
    |destruct (decide (ordering s = Some SortNeeded)) as [_|_]];
    simpl; try exact Hwf.
  - assert (Hnd : NoDup (sorted_robust (os_ordered_values s))).
    { rewrite sorted_perm. apply Hwf. }
    split; [exact Hnd | apply enum_dict_spec; exact Hnd].
  - assert (Hnd : NoDup (sorted_robust (os_ordered_values s))).
    { rewrite sorted_perm. apply Hwf. }
    split; [exact Hnd | apply enum_dict_spec; exact Hnd].
Qed.

Lemma ensure_sorted_wf (s : OrderedSetData (E:=E)) :
  os_wf s -> os_wf (ensure_sorted sorted_robust ordering s).
Proof.
  intros Hwf. unfold ensure_sorted. destruct (data_ok s); [exact Hwf | apply sort_wf, Hwf].
Qed.

Lemma ensure_sorted_idem (s : OrderedSetData (E:=E)) :
  ensure_sorted sorted_robust ordering (ensure_sorted sorted_robust ordering s) =
  ensure_sorted sorted_robust ordering s.
Proof.
  destruct s as [vals ov [st|] d]; unfold ensure_sorted, sort_, data_ok; simpl.
  - destruct st; reflexivity.
  - destruct (ordering _) as [[| |]|] eqn:Ho; simpl; try rewrite Ho; reflexivity.
Qed.

Variable flatten_tuple : E -> E.

Lemma os_add_wf (v : E) (s : OrderedSetData (E:=E)) :
  os_wf s -> os_wf (os_add flatten_tuple v s).1.1.
Proof.
  intros Hwf. unfold os_add.
  destruct (domain_rejects (os_domain s) v); simpl; [exact Hwf|].
  destruct (decide (flatten_tuple v ∈ dom (os_values s))) as [_|Hnew]; simpl; [exact Hwf|].
  pose proof (os_wf_size s Hwf) as Hsz. destruct Hwf as [Hnd Hiff].
  assert (Hnin : flatten_tuple v ∉ os_ordered_values s).
  { intros Hin. apply Hnew. apply list_elem_of_lookup in Hin as [i Hi].
    apply elem_of_dom. exists i. apply Hiff, Hi. }
  split.
  - apply list.NoDup_app. split; [exact Hnd|]. split; [|apply NoDup_singleton].
    intros x Hx Hx'. apply list_elem_of_singleton in Hx' as ->. contradiction.
  - intros x i. cbn [os_values os_ordered_values]. rewrite Hsz, lookup_snoc_Some. split.
    + intros Hl. destruct (decide (x = flatten_tuple v)) as [->|Hne].
      * rewrite lookup_insert_eq in Hl. injection Hl as <-. right. split; reflexivity.
      * rewrite lookup_insert_ne in Hl by congruence. left.
        apply Hiff in Hl as Hl'. split; [apply lookup_lt_Some in Hl'; lia | exact Hl'].
    + intros [[Hlt Hl]|[-> ->]].
      * assert (x <> flatten_tuple v) by (intros ->; apply Hnin; eapply list_elem_of_lookup_2; eauto).
        rewrite lookup_insert_ne by congruence. apply Hiff, Hl.
      * apply lookup_insert_eq.
Qed.

Lemma os_empty_wf (d : Domain (E:=E)) : os_wf (os_empty d).
Proof.
  split; [constructor|]. intros x i. cbn [os_values os_ordered_values os_empty].
  rewrite lookup_empty. split; [discriminate|].
  intros Hi. rewrite lookup_nil in Hi. discriminate.
Qed.

Lemma os_add_all_wf (vs : list E) (s : OrderedSetData (E:=E)) :
  os_wf s -> os_wf (os_add_all flatten_tuple vs s).
Proof.
  revert s; induction vs as [|v vs IH]; intros s Hwf; simpl; [exact Hwf|].
  apply IH, os_add_wf, Hwf.
Qed.

End OrderedLemmas.

Section OrderedAccess.
Context {E : Type} `{Countable E}.
Variable sorted_robust : list E -> list E.
Variable ordering : OrderedSetData (E:=E) -> option OrderState.

Lemma py_list_get_nonneg (l : list E) (i : Z) :
  0 <= i < Z.of_nat (length l) ->
  exists x, l !! Z.to_nat i = Some x /\ py_list_get l i = Ok x.
Proof.
  intros Hi. destruct (lookup_lt_is_Some_2 l (Z.to_nat i)) as [x Hx]; [lia|].
  exists x. split; [exact Hx|]. unfold py_list_get. cbv zeta.
  destruct (Z.ltb_spec i 0); [lia|]. destruct (Z.ltb_spec i 0); [lia|].
  rewrite Hx. reflexivity.
Qed.

Lemma py_list_get_neg (l : list E) (i : Z) :
  i < 0 -> 0 <= Z.of_nat (length l) + i ->
  exists x, l !! Z.to_nat (Z.of_nat (length l) + i) = Some x /\ py_list_get l i = Ok x.
Proof.
  intros Hneg Hi.
  destruct (lookup_lt_is_Some_2 l (Z.to_nat (Z.of_nat (length l) + i))) as [x Hx]; [lia|].
  exists x. split; [exact Hx|]. unfold py_list_get. cbv zeta.
  destruct (Z.ltb_spec i 0); [|lia].
  destruct (Z.ltb_spec (Z.of_nat (length l) + i) 0); [lia|]. rewrite Hx. reflexivity.
Qed.

Lemma getitem_sorted (k : Z) (s : OrderedSetData (E:=E)) :
  os_getitem sorted_robust ordering k (ensure_sorted sorted_robust ordering s) =
  os_getitem sorted_robust ordering k s.
Proof. unfold os_getitem. rewrite ensure_sorted_idem. reflexivity. Qed.

Lemma getitem_in_range (k : Z) (s : OrderedSetData (E:=E)) :
  os_wf (ensure_sorted sorted_robust ordering s) ->
  1 <= k <= Z.of_nat (length (os_ordered_values (ensure_sorted sorted_robust ordering s))) ->
  exists x, os_ordered_values (ensure_sorted sorted_robust ordering s) !! Z.to_nat (k - 1) = Some x /\
    os_getitem sorted_robust ordering k s = (ensure_sorted sorted_robust ordering s, [], Ok x).
Proof.
  intros Hwf Hk. unfold os_getitem, os_len_of.
  set (s' := ensure_sorted sorted_robust ordering s) in *.
  rewrite (os_wf_size s' Hwf).
  destruct (py_list_get_nonneg (os_ordered_values s') (k - 1)) as [x [Hx Hget]]; [lia|].
  exists x. split; [exact Hx|].
  destruct (Z.leb_spec 1 k); [|lia].
  destruct (Z.ltb_spec (Z.of_nat (length (os_ordered_values s'))) k); [lia|].
  rewrite Hget. reflexivity.
Qed.

Lemma ord_present (item : E) (j : nat) (s : OrderedSetData (E:=E)) :
  os_wf (ensure_sorted sorted_robust ordering s) ->
  os_ordered_values (ensure_sorted sorted_robust ordering s) !! j = Some item ->
  os_ord sorted_robust ordering item s =
    (ensure_sorted sorted_robust ordering s, [], Ok (Z.of_nat j + 1)).
Proof.
  intros [_ Hiff] Hj. unfold os_ord. apply Hiff in Hj. rewrite Hj. reflexivity.
Qed.

Lemma ord_absent (item : E) (s : OrderedSetData (E:=E)) :
  os_wf (ensure_sorted sorted_robust ordering s) ->
  item ∉ os_ordered_values (ensure_sorted sorted_robust ordering s) ->
  os_ord sorted_robust ordering item s =
    (ensure_sorted sorted_robust ordering s, [], Err IndexError_not_in_set).
Proof.
  intros [_ Hiff] Hnin. unfold os_ord.
  destruct (os_values (ensure_sorted sorted_robust ordering s) !! item) as [i|] eqn:Hi;
    [|reflexivity].
  exfalso. apply Hnin. apply Hiff in Hi. eapply list_elem_of_lookup_2; exact Hi.
Qed.

Lemma nextw_at (s : OrderedSetData (E:=E)) (p step : Z) (item : E) :
  os_wf (ensure_sorted sorted_robust ordering s) ->
  1 <= p ->
  os_ordered_values (ensure_sorted sorted_robust ordering s) !! Z.to_nat (p - 1) = Some item ->
  exists x,
    os_ordered_values (ensure_sorted sorted_robust ordering s) !!
      Z.to_nat ((p + step - 1) mod Z.of_nat (length (os_ordered_values (ensure_sorted sorted_robust ordering s)))) = Some x /\
    os_nextw sorted_robust ordering item step s = (ensure_sorted sorted_robust ordering s, [], Ok x).
Proof.
  intros Hwf Hp Hitem.
  set (s' := ensure_sorted sorted_robust ordering s) in *.
  set (N := Z.of_nat (length (os_ordered_values s'))).
  assert (HN : 0 < N).
  { apply lookup_lt_Some in Hitem. unfold N. lia. }
  assert (Hk : 1 <= (p + step - 1) mod N + 1 <= N).
  { pose proof (Z.mod_pos_bound (p + step - 1) N HN). lia. }
  assert (Hs'' : ensure_sorted sorted_robust ordering s' = s') by apply ensure_sorted_idem.
  destruct (getitem_in_range ((p + step - 1) mod N + 1) s') as [x [Hx Hget]];
    rewrite ?Hs''; [exact Hwf | exact Hk |].
  rewrite Hs'' in Hx, Hget.
  exists x. split.
  - replace ((p + step - 1) mod N) with ((p + step - 1) mod N + 1 - 1) by lia. exact Hx.
  - unfold os_nextw, st_bind.
    rewrite (ord_present item (Z.to_nat (p - 1)) s Hwf Hitem).
    cbv beta iota. unfold os_len, os_len_of. cbv beta iota. fold s'.
    rewrite (os_wf_size s' Hwf). fold N.
    destruct (decide (N = 0)) as [|_]; [lia|].
    replace (Z.of_nat (Z.to_nat (p - 1)) + 1) with p by lia.
    rewrite Hget. reflexivity.
Qed.

End OrderedAccess.

(** ** Claims on ordered sets and on [add] *)

(** C5 (refuted, code bug): [next]/[prev] do not fail whenever the target
    position [p+step] leaves [[1, N]].  For [S = OrderedSet([1, 2, 3])] (insertion
    order), [S.prev(1, step=2)] computes [S[1 - 2] = S[-1]], which
    [__getitem__] answers with the last element 3 through Python negative
    indexing, although position -1 lies before the first element and the
    docstring of [prev] promises an [IndexError] there. *)
Theorem prev_before_first_returns_last :
  os_ordered_values (ensure_sorted sorted_Z insertion_ordering os123) = [1; 2; 3] /\
  (os_ord sorted_Z insertion_ordering 1 os123).2 = Ok 1 /\
  (os_prev sorted_Z insertion_ordering 1 2 os123).2 = Ok 3.
Proof. vm_compute. repeat split; reflexivity. Qed.

(** C6: [__getitem__] is 1-based.  On a well-formed ordered set, after the
    lazy sort, with [N] its length: [1 <= i <= N] gives the [i]-th element,
    [i > N] fails past the last element, [-N <= i < 0] gives the [|i|]-th
    element from the end, [i < -N] fails before the first element, and [i = 0]
    fails with the invalid-index error.  The state is only sorted, nothing is
    logged. *)
Theorem getitem_one_based {E : Type} `{Countable E}
    (sorted_robust : list E -> list E)
    (ordering : OrderedSetData (E:=E) -> option OrderState)
    (Hperm : forall l, sorted_robust l ≡ₚ l)
    (s : OrderedSetData (E:=E)) (i : Z) :
  os_wf s ->
  let s' := ensure_sorted sorted_robust ordering s in
  let N := Z.of_nat (length (os_ordered_values s')) in
  exists r, os_getitem sorted_robust ordering i s = (s', [], r) /\
    (1 <= i <= N -> exists x, os_ordered_values s' !! Z.to_nat (i - 1) = Some x /\ r = Ok x) /\
    (N < i -> r = Err IndexError_past_last) /\
    (i < 0 /\ - i <= N ->
       exists x, os_ordered_values s' !! Z.to_nat (N + i) = Some x /\ r = Ok x) /\
    (i < 0 /\ N < - i -> r = Err IndexError_before_first) /\
    (i = 0 -> r = Err IndexError_invalid).
Proof.
  intros Hwf s' N. subst s' N.
  pose proof (ensure_sorted_wf sorted_robust ordering Hperm s Hwf) as Hwf'.
  unfold os_getitem, os_len_of.
  set (s' := ensure_sorted sorted_robust ordering s) in *.
  rewrite (os_wf_size s' Hwf').
  set (N := Z.of_nat (length (os_ordered_values s'))).
  eexists. split; [reflexivity|].
  split; [|split; [|split; [|split]]].
  - intros Hi. destruct (Z.leb_spec 1 i); [|lia]. destruct (Z.ltb_spec N i); [lia|].
    apply py_list_get_nonneg. unfold N in Hi. lia.
  - intros Hi. destruct (Z.leb_spec 1 i); [|lia]. destruct (Z.ltb_spec N i); [reflexivity|lia].
  - intros [Hi Hn]. destruct (Z.leb_spec 1 i); [lia|]. destruct (Z.ltb_spec i 0); [|lia].
    destruct (Z.ltb_spec (N + i) 0); [lia|].
    apply py_list_get_neg; unfold N in Hn; lia.
  - intros [Hi Hn]. destruct (Z.leb_spec 1 i); [lia|]. destruct (Z.ltb_spec i 0); [|lia].
    destruct (Z.ltb_spec (N + i) 0); [reflexivity|lia].
  - intros ->. reflexivity.
Qed.

(** C10: [nextw] wraps around.  On a well-formed ordered set with sequence
    [L] (after the lazy sort) and length [N]: for [item] at 1-based position
    [p], [nextw(item, step)] returns the element at 0-based index
    [(p + step - 1) mod N], i.e. at 1-based position [((p + step - 1) mod N) + 1];
    [prevw(item, step)] is [nextw(item, -step)]; an absent [item] fails with
    the not-in-set error; [nextw(last) = first] and [prevw(first) = last]. *)
Theorem nextw_wraps_around {E : Type} `{Countable E}
    (sorted_robust : list E -> list E)
    (ordering : OrderedSetData (E:=E) -> option OrderState)
    (Hperm : forall l, sorted_robust l ≡ₚ l)
    (s : OrderedSetData (E:=E)) :
  os_wf s ->
  let s' := ensure_sorted sorted_robust ordering s in
  let L := os_ordered_values s' in
  let N := Z.of_nat (length L) in
  (forall p step item, 1 <= p -> L !! Z.to_nat (p - 1) = Some item ->
     exists x, L !! Z.to_nat ((p + step - 1) mod N) = Some x /\
       os_nextw sorted_robust ordering item step s = (s', [], Ok x)) /\
  (forall item step,
     os_prevw sorted_robust ordering item step s = os_nextw sorted_robust ordering item (- step) s) /\
  (forall item step, item ∉ L ->
     os_nextw sorted_robust ordering item step s = (s', [], Err IndexError_not_in_set)) /\
  (forall fst_item lst_item, head L = Some fst_item -> list.last L = Some lst_item ->
     os_nextw sorted_robust ordering lst_item 1 s = (s', [], Ok fst_item) /\
     os_prevw sorted_robust ordering fst_item 1 s = (s', [], Ok lst_item)).
Proof.
  intros Hwf s' L N. subst s' L N.
  pose proof (ensure_sorted_wf sorted_robust ordering Hperm s Hwf) as Hwf'.
  set (s' := ensure_sorted sorted_robust ordering s) in *.
  set (L := os_ordered_values s').
  set (N := Z.of_nat (length L)).
  assert (Hat : forall p step item, 1 <= p -> L !! Z.to_nat (p - 1) = Some item ->
     exists x, L !! Z.to_nat ((p + step - 1) mod N) = Some x /\
       os_nextw sorted_robust ordering item step s = (s', [], Ok x)).
  { intros p step item Hp Hitem. exact (nextw_at sorted_robust ordering s p step item Hwf' Hp Hitem). }
  split; [exact Hat|]. split; [reflexivity|]. split.
  - intros item step Hnin. unfold os_nextw, st_bind.
    rewrite (ord_absent sorted_robust ordering item s Hwf' Hnin). reflexivity.
  - intros f l Hf Hl.
    rewrite head_lookup in Hf. rewrite last_lookup in Hl.
    assert (HN : 0 < N).
    { apply lookup_lt_Some in Hf. unfold N. lia. }
    split.
    + destruct (Hat N 1 l) as [x [Hx Hnext]]; [lia| |].
      { replace (Z.to_nat (N - 1)) with (pred (length L)) by (unfold N; lia). exact Hl. }
      replace ((N + 1 - 1) mod N) with 0 in Hx
        by (replace (N + 1 - 1) with N by lia; symmetry; apply Z.mod_same; lia).
      change (Z.to_nat 0) with 0%nat in Hx.
      rewrite Hf in Hx. injection Hx as <-. exact Hnext.
    + unfold os_prevw.
      destruct (Hat 1 (- (1)) f) as [x [Hx Hnext]]; [lia|exact Hf|].
      assert (Hm : (1 + - (1) - 1) mod N = N - 1).
      { replace (1 + - (1) - 1) with (-1) by lia.
        rewrite <- (Z.mod_add (-1) 1 N) by lia.
        replace (-1 + 1 * N) with (N - 1) by lia. apply Z.mod_small; lia. }
      rewrite Hm in Hx.
      replace (Z.to_nat (N - 1)) with (pred (length L)) in Hx by (unfold N; lia).
      rewrite Hl in Hx. injection Hx as <-. exact Hnext.
Qed.

(** C8 (refuted): a value whose flattened form is already in the set can
    still make [add] raise.  [_FiniteSetData.add] tests [value not in
    self._domain] on the raw value before flattening.  With the domain
    [{(1, 2, 3)}] and [S] holding [(1, 2, 3)], [S.add((1, (2, 3)))]: the
    flattened form [(1, 2, 3)] is in [S], yet the raw value is not in the
    domain and [add] raises [ValueError]. *)
Lemma add_existing_outside_domain_raises :
  flatten_tuple_py t1_23 ∈ fs_values set123 /\
  fs_add flatten_tuple_py t1_23 set123 = (set123, [], Err ValueError_domain).
Proof.
  split.
  - apply (bool_decide_unpack (flatten_tuple_py t1_23 ∈ fs_values set123)).
    vm_compute. exact I.
  - vm_compute. reflexivity.
Qed.

(** C8 (amended): when the domain accepts [v] (or there is none) and the
    flattened form of [v] is already an element, [add(v)] of a
    [_FiniteSetData] or an [_OrderedSetData] does not raise, logs the
    already-exists warning, and returns the state unchanged: same values,
    same sequence, same element-to-position mapping, same order state and
    same domain. *)
Theorem add_existing_is_noop {E : Type} `{Countable E} (flatten_tuple : E -> E) :
  (forall (s : FiniteSetData (E:=E)) v,
     domain_rejects (fs_domain s) v = false ->
     flatten_tuple v ∈ fs_values s ->
     fs_add flatten_tuple v s = (s, [AlreadyExists (flatten_tuple v)], Ok tt)) /\
  (forall (s : OrderedSetData (E:=E)) v,
     domain_rejects (os_domain s) v = false ->
     flatten_tuple v ∈ dom (os_values s) ->
     os_add flatten_tuple v s = (s, [AlreadyExists (flatten_tuple v)], Ok tt)).
Proof.
  split.
  - intros [vals d] v Hd Hin. cbn [fs_domain fs_values] in *. unfold fs_add.
    cbn [fs_domain fs_values]. rewrite Hd.
    destruct (decide (flatten_tuple v ∈ vals)) as [_|]; [|contradiction].
    replace ({[flatten_tuple v]} ∪ vals) with vals by set_solver.
    reflexivity.
  - intros s v Hd Hin. unfold os_add. rewrite Hd.
    destruct (decide (flatten_tuple v ∈ dom (os_values s))); [reflexivity|contradiction].
Qed.

(** C9: when the domain rejects [v], [add(v)] of a [_FiniteSetData] or an
    [_OrderedSetData] raises [ValueError] at once, logs nothing and returns
    the state unchanged. *)
Theorem add_outside_domain_rejected {E : Type} `{Countable E} (flatten_tuple : E -> E) :
  (forall (s : FiniteSetData (E:=E)) v d,
     fs_domain s = Some d -> d v = false ->
     fs_add flatten_tuple v s = (s, [], Err ValueError_domain)) /\
  (forall (s : OrderedSetData (E:=E)) v d,
     os_domain s = Some d -> d v = false ->
     os_add flatten_tuple v s = (s, [], Err ValueError_domain)).
Proof.
  split.
  - intros s v d Hs Hv. unfold fs_add, domain_rejects. rewrite Hs, Hv. reflexivity.
  - intros s v d Hs Hv. unfold os_add, domain_rejects. rewrite Hs, Hv. reflexivity.
Qed.

Lemma getitem_one_based_witness :
  os_wf os123 /\
  os_getitem sorted_Z insertion_ordering (-1) os123 =
    (ensure_sorted sorted_Z insertion_ordering os123, [], Ok 3).
Proof.
  assert (Hwf : os_wf os123) by (apply os_add_all_wf, os_empty_wf).
  split; [exact Hwf|].
  destruct (getitem_one_based sorted_Z insertion_ordering
              (fun l => merge_sort_Permutation _ l) os123 (-1) Hwf)
    as [r [Hr [_ [_ [Hneg _]]]]].
  destruct Hneg as [x [Hx Hrx]].
  { split; [lia | vm_compute; discriminate]. }
  vm_compute in Hx. injection Hx as <-. rewrite Hr, Hrx. reflexivity.
Defined.

Lemma nextw_wraps_around_witness :
  os_wf os123 /\
  os_nextw sorted_Z insertion_ordering 3 1 os123 =
    (ensure_sorted sorted_Z insertion_ordering os123, [], Ok 1) /\
  os_prevw sorted_Z insertion_ordering 1 1 os123 =
    (ensure_sorted sorted_Z insertion_ordering os123, [], Ok 3).
Proof.
  assert (Hwf : os_wf os123) by (apply os_add_all_wf, os_empty_wf).
  split; [exact Hwf|].
  destruct (nextw_wraps_around sorted_Z insertion_ordering
              (fun l => merge_sort_Permutation _ l) os123 Hwf) as [_ [_ [_ Hends]]].
  apply Hends; vm_compute; reflexivity.
Defined.

Lemma add_existing_is_noop_witness :
  fs_add flatten_int 1 fs12 = (fs12, [AlreadyExists (flatten_int 1)], Ok tt) /\
  os_add flatten_int 2 os123 = (os123, [AlreadyExists (flatten_int 2)], Ok tt).
Proof.
  destruct (add_existing_is_noop flatten_int) as [Hfs Hos]. split.
  - apply Hfs; [vm_compute; reflexivity|].
    apply (bool_decide_unpack (flatten_int 1 ∈ fs_values fs12)). vm_compute. exact I.
  - apply Hos; [vm_compute; reflexivity|].
    apply (bool_decide_unpack (flatten_int 2 ∈ dom (os_values os123))). vm_compute. exact I.
Defined.

Lemma add_outside_domain_rejected_witness :
  fs_add flatten_int (-1) fs12 = (fs12, [], Err ValueError_domain) /\
  os_add flatten_int (-1) os12_nonneg = (os12_nonneg, [], Err ValueError_domain).
Proof.
  destruct (add_outside_domain_rejected flatten_int) as [Hfs Hos]. split.
  - apply (Hfs fs12 (-1) (fun v => 0 <=? v)); vm_compute; reflexivity.
  - apply (Hos os12_nonneg (-1) (fun v => 0 <=? v)); vm_compute; reflexivity.
Defined.

(** ** Further properties of the set algebra *)

Section AlgebraHelpers.
Context {E R O : Type} {RO : @RangeOps E R} {SP : @SetProtocol E R O}.

Lemma none_in_true (other : O) (xs : list E) :
  none_in other xs = Ok true <-> Forall (fun x => sp_contains other x = Ok false) xs.
Proof.
  induction xs as [|x xs IH]; simpl.
  - split; [constructor | reflexivity].
  - destruct (sp_contains other x) as [[|]|e] eqn:Hx; simpl.
    + split; [discriminate | intros Hf; inversion Hf; congruence].
    + rewrite IH. split.
      * intros Hf. constructor; assumption.
      * intros Hf. inversion Hf; assumption.
    + split; [discriminate | intros Hf; inversion Hf; congruence].
Qed.

Lemma ranges_covered_ok (rs ss : list R) (other : O) :
  sp_ranges other = Ok ss ->
  ranges_covered rs other = Ok (forallb (fun r => existsb (fun s => range_issubset r s) ss) rs).
Proof.
  intros Hss. induction rs as [|r rs IH]; simpl; [reflexivity|].
  rewrite Hss. simpl. destruct (existsb _ ss); simpl; [exact IH | reflexivity].
Qed.

Lemma ranges_cover_some_ok (rs ss : list R) (other : O) :
  sp_ranges other = Ok ss ->
  ranges_cover_some rs other = Ok (forallb (fun r => existsb (fun s => range_issubset s r) ss) rs).
Proof.
  intros Hss. induction rs as [|r rs IH]; simpl; [reflexivity|].
  rewrite Hss. simpl. destruct (existsb _ ss); simpl; [exact IH | reflexivity].
Qed.

End AlgebraHelpers.

(** For a finite [T], [S.issuperset(T)] runs exactly as [T.issubset(S)]: it
    iterates [T] and returns [True] iff every element of [T] is in [S]. *)
Theorem issuperset_of_finite_is_reverse_issubset {E R O : Type} {RO : @RangeOps E R}
    {SP : @SetProtocol E R O} (S T : O) (ys : list E) :
  sp_is_finite T = true -> sp_iter T = Ok ys ->
  set_issuperset S T = set_issubset T S /\
  (set_issuperset S T = Ok true <-> Forall (fun y => sp_contains S y = Ok true) ys).
Proof.
  intros Hfin Hiter. unfold set_issuperset, set_issubset. rewrite Hfin, Hiter. simpl.
  split; [reflexivity | apply all_in_true].
Qed.

(** For two infinite sets, [S.issubset(T)] is [True] iff every range of [S]
    is a subset of some range of [T], and [S.issuperset(T)] is [True] iff
    every range of [S] contains some range of [T] (not: every range of [T]
    lies in some range of [S]). *)
Theorem subset_tests_on_infinite_sets {E R O : Type} {RO : @RangeOps E R}
    {SP : @SetProtocol E R O} (S T : O) (rs1 rs2 : list R) :
  sp_is_finite S = false -> sp_is_finite T = false ->
  sp_ranges S = Ok rs1 -> sp_ranges T = Ok rs2 ->
  set_issubset S T = Ok (forallb (fun r => existsb (fun s => range_issubset r s) rs2) rs1) /\
  set_issuperset S T = Ok (forallb (fun r => existsb (fun s => range_issubset s r) rs2) rs1).
Proof.
  intros HS HT H1 H2. unfold set_issubset, set_issuperset. rewrite HS, HT, H1. simpl.
  split; [apply ranges_covered_ok | apply ranges_cover_some_ok]; exact H2.
Qed.

(** When one set is finite and the other is not, [==] is [False] both ways,
    the infinite one is not a subset of the finite one, and the finite one is
    not a superset of the infinite one. *)
Theorem mixed_finiteness_comparisons {E R O : Type} {RO : @RangeOps E R}
    {SP : @SetProtocol E R O} (S T : O) :
  sp_is_finite S = true -> sp_is_finite T = false ->
  set_eq S T = Ok false /\ set_eq T S = Ok false /\
  set_issubset T S = Ok false /\ set_issuperset S T = Ok false.
Proof.
  intros HS HT. unfold set_eq, set_issubset, set_issuperset. rewrite HS, HT.
  repeat split; reflexivity.
Qed.

(** [S.isdisjoint(T)] for a finite [S] iterates [S] and returns [True] iff no
    element of [S] is in [T]; for an infinite [S] and a finite [T] it
    iterates [T] and returns [True] iff no element of [T] is in [S]. *)
Theorem isdisjoint_iterates_finite_side {E R O : Type} {RO : @RangeOps E R}
    {SP : @SetProtocol E R O} (S T : O) (xs : list E) :
  (sp_is_finite S = true -> sp_iter S = Ok xs ->
   (set_isdisjoint S T = Ok (Some true) <-> Forall (fun x => sp_contains T x = Ok false) xs)) /\
  (sp_is_finite S = false -> sp_is_finite T = true -> sp_iter T = Ok xs ->
   (set_isdisjoint S T = Ok (Some true) <-> Forall (fun x => sp_contains S x = Ok false) xs)).
Proof.
  split.
  - intros HS Hit. unfold set_isdisjoint. rewrite HS, Hit. simpl.
    rewrite <- none_in_true. destruct (none_in T xs); simpl; split; congruence.
  - intros HS HT Hit. unfold set_isdisjoint. rewrite HS, HT, Hit. simpl.
    rewrite <- none_in_true. destruct (none_in S xs); simpl; split; congruence.
Qed.

(** For two finite sets, [S == T] (two distinct objects) is [True] iff their
    lengths are equal and every element of [S] is in [T]. *)
Theorem eq_finite_sets_elementwise {E R O : Type} {RO : @RangeOps E R}
    {SP : @SetProtocol E R O} (S T : O) (n1 n2 : nat) (xs : list E) :
  sp_is_finite S = true -> sp_is_finite T = true ->
  sp_len S = Ok (Some n1) -> sp_len T = Ok (Some n2) -> sp_iter S = Ok xs ->
  (set_eq S T = Ok true <-> n1 = n2 /\ Forall (fun x => sp_contains T x = Ok true) xs).
Proof.
  intros HS HT H1 H2 Hit. unfold set_eq, py_len. rewrite HS, HT, H1, H2. simpl.
  destruct (decide (n1 = n2)) as [->|Hne]; simpl.
  - rewrite Hit. simpl. rewrite all_in_true. tauto.
  - split; [discriminate | tauto].
Qed.

(** [<] and [>] are strict: [S < S] and [S > S] are never [True], and
    [S < T] ([S > T]) is [True] only when [S.issubset(T)]
    ([S.issuperset(T)]) is [True] and [S == T] is [False]. *)
Theorem strict_comparisons {E R O : Type} {RO : @RangeOps E R}
    {SP : @SetProtocol E R O} :
  (forall S : O, set_lt true S S <> Ok true /\ set_gt true S S <> Ok true) /\
  (forall same (S T : O), set_lt same S T = Ok true ->
     set_issubset S T = Ok true /\ py_eq same S T = Ok false) /\
  (forall same (S T : O), set_gt same S T = Ok true ->
     set_issuperset S T = Ok true /\ py_eq same S T = Ok false).
Proof.
  split; [|split].
  - intros S. unfold set_lt, set_gt, py_eq. split.
    + destruct (set_issubset S S) as [[|]|e]; simpl; discriminate.
    + destruct (set_issuperset S S) as [[|]|e]; simpl; discriminate.
  - intros same S T. unfold set_lt.
    destruct (set_issubset S T) as [[|]|e]; simpl; try discriminate.
    destruct (py_eq same S T) as [[|]|e]; simpl; try discriminate. auto.
  - intros same S T. unfold set_gt.
    destruct (set_issuperset S T) as [[|]|e]; simpl; try discriminate.
    destruct (py_eq same S T) as [[|]|e]; simpl; try discriminate. auto.
Qed.

Lemma issuperset_of_finite_is_reverse_issubset_witness :
  set_issuperset (SetProtocol0:=mixin_first_proto) (MInfinite [nonneg]) (MFinite {[0]}) =
    set_issubset (SetProtocol0:=mixin_first_proto) (MFinite {[0]}) (MInfinite [nonneg]) /\
  (set_issuperset (SetProtocol0:=mixin_first_proto) (MInfinite [nonneg]) (MFinite {[0]}) = Ok true <->
   Forall (fun y => sp_contains (SetProtocol:=mixin_first_proto) (MInfinite [nonneg]) y = Ok true) [0]).
Proof.
  apply (issuperset_of_finite_is_reverse_issubset (SP:=mixin_first_proto)); reflexivity.
Defined.

Lemma subset_tests_on_infinite_sets_witness :
  set_issubset (SetProtocol0:=mixin_first_proto) (MInfinite [r01]) (MInfinite [nonneg]) = Ok true /\
  set_issuperset (SetProtocol0:=mixin_first_proto) (MInfinite [r01]) (MInfinite [nonneg]) = Ok false.
Proof.
  pose proof (subset_tests_on_infinite_sets (SP:=mixin_first_proto)
           (MInfinite [r01]) (MInfinite [nonneg]) [r01] [nonneg]
           eq_refl eq_refl eq_refl eq_refl) as [H1 H2].
  split; [rewrite H1 | rewrite H2]; reflexivity.
Defined.

Lemma mixed_finiteness_comparisons_witness :
  set_eq (SetProtocol0:=mixin_first_proto) (MFinite {[0]}) (MInfinite [nonneg]) = Ok false /\
  set_eq (SetProtocol0:=mixin_first_proto) (MInfinite [nonneg]) (MFinite {[0]}) = Ok false /\
  set_issubset (SetProtocol0:=mixin_first_proto) (MInfinite [nonneg]) (MFinite {[0]}) = Ok false /\
  set_issuperset (SetProtocol0:=mixin_first_proto) (MFinite {[0]}) (MInfinite [nonneg]) = Ok false.
Proof.
  apply (mixed_finiteness_comparisons (SP:=mixin_first_proto)); reflexivity.
Defined.

Lemma isdisjoint_iterates_finite_side_witness :
  set_isdisjoint (SetProtocol0:=mixin_first_proto) (MFinite {[0]}) (MInfinite [rneg]) = Ok (Some true) /\
  set_isdisjoint (SetProtocol0:=mixin_first_proto) (MInfinite [rneg]) (MFinite {[0]}) = Ok (Some true).
Proof.
  split.
  - apply (proj1 (isdisjoint_iterates_finite_side (SP:=mixin_first_proto)
                    (MFinite {[0]}) (MInfinite [rneg]) [0])); try reflexivity.
    constructor; [reflexivity | constructor].
  - apply (proj2 (isdisjoint_iterates_finite_side (SP:=mixin_first_proto)
                    (MInfinite [rneg]) (MFinite {[0]}) [0])); try reflexivity.
    constructor; [reflexivity | constructor].
Defined.

Lemma eq_finite_sets_elementwise_witness :
  set_eq (SetProtocol0:=mixin_first_proto) (MFinite {[0]}) (MFinite {[0]}) = Ok true.
Proof.
  apply (eq_finite_sets_elementwise (SP:=mixin_first_proto)
           (MFinite {[0]}) (MFinite {[0]}) 1 1 [0]); try reflexivity.
  split; [reflexivity | constructor; [reflexivity | constructor]].
Defined.

Lemma strict_comparisons_witness :
  set_issubset (SetProtocol0:=mixin_first_proto) (MFinite {[0]}) (MInfinite [nonneg]) = Ok true /\
  py_eq (SetProtocol0:=mixin_first_proto) false (MFinite {[0]}) (MInfinite [nonneg]) = Ok false.
Proof.
  apply (proj1 (proj2 (strict_comparisons (SP:=mixin_first_proto)))). reflexivity.
Defined.

(** Through the method resolution order, [_FiniteSetData] and
    [_OrderedSetData] instances take [is_finite] from [_SetData] (it returns
    [False]) and [__len__] from [_FiniteSetData] (the number of values). *)
Theorem data_sets_report_not_finite {E : Type} `{Countable E} {R : Type}
    (fs : FiniteSetData (E:=E)) (os : OrderedSetData (E:=E)) :
  resolve FiniteSetData_ m_is_finite = Some SetData_ /\
  resolve OrderedSetData_ m_is_finite = Some SetData_ /\
  obj_is_finite (OFinite fs : @SetObj E _ _ R) = false /\
  obj_is_finite (OOrdered os : @SetObj E _ _ R) = false /\
  obj_len (OFinite fs : @SetObj E _ _ R) = Ok (Some (size (fs_values fs))) /\
  obj_len (OOrdered os : @SetObj E _ _ R) = Ok (Some (size (os_values os))).
Proof. repeat split; reflexivity. Qed.

(** Between two [_FiniteSetData]/[_OrderedSetData] objects that are not the
    same object, [==], [isdisjoint], [issubset], [issuperset], [<] and [>]
    all raise [AttributeError]: both report [is_finite() == False], so the
    infinite branch calls [self.ranges()], which these classes lack. *)
Theorem data_sets_comparisons_raise {E : Type} `{Countable E} {R : Type}
    `{!@RangeOps E R} (sorted_robust : list E -> list E)
    (ordering : OrderedSetData (E:=E) -> option OrderState) (a b : @SetObj E _ _ R) :
  is_data_obj a = true -> is_data_obj b = true ->
  let P := SetObj_protocol sorted_robust ordering in
  py_eq (SetProtocol0:=P) false a b = Err AttributeError_ranges /\
  set_isdisjoint (SetProtocol0:=P) a b = Err AttributeError_ranges /\
  set_issubset (SetProtocol0:=P) a b = Err AttributeError_ranges /\
  set_issuperset (SetProtocol0:=P) a b = Err AttributeError_ranges /\
  set_lt (SetProtocol0:=P) false a b = Err AttributeError_ranges /\
  set_gt (SetProtocol0:=P) false a b = Err AttributeError_ranges.
Proof.
  intros Ha Hb P.
  destruct a; try discriminate; destruct b; try discriminate; repeat split; reflexivity.
Qed.

(** [_InfiniteSet( *args)] succeeds iff every argument is an
    [_InfiniteRange], and then [ranges()] returns the arguments in order and
    [v in S] holds iff some range contains [v] (an [_InfiniteSet] with no
    ranges contains nothing); any other argument raises [TypeError]. *)
Theorem infinite_set_init_ranges {E : Type} `{Countable E} {R : Type}
    `{!@RangeOps E R} {A : Type} (args : list (R + A)) :
  (forall o, infinite_set_init (E:=E) args = Some o ->
     exists rs, args = map inl rs /\ o = OInfinite rs /\ obj_ranges o = Ok rs /\
       forall v, obj_contains o v = Ok (existsb (fun r => range_contains r v) rs)) /\
  (forall rs, args = map inl rs -> infinite_set_init (E:=E) args = Some (OInfinite rs)) /\
  (infinite_set_init (E:=E) args = None <-> exists a, inr a ∈ args).
Proof.
  assert (Hc : forall rs, check_ranges args = Some rs <-> args = map inl rs).
  { induction args as [|[r|a] args IH]; intros rs; simpl.
    - split; [intros [= <-]; reflexivity | destruct rs; simpl; congruence].
    - destruct (check_ranges args) as [rs'|] eqn:Hr; simpl.
      + split.
        * intros [= <-]. simpl. f_equal. apply IH. reflexivity.
        * destruct rs as [|r' rs]; simpl; [discriminate|].
          intros [= -> Hargs]. apply IH in Hargs. congruence.
      + split; [discriminate|].
        destruct rs as [|r' rs]; simpl; [discriminate|].
        intros [= -> Hargs]. apply IH in Hargs. congruence.
    - split; [discriminate|]. destruct rs; simpl; discriminate. }
  assert (Hn : check_ranges args = None <-> exists a, inr a ∈ args).
  { clear Hc. induction args as [|[r|a] args IH]; simpl.
    - split; [discriminate|]. intros [a Ha]. apply elem_of_nil in Ha. contradiction.
    - destruct (check_ranges args) as [rs'|] eqn:Hr; simpl.
      + split; [discriminate|]. intros [a Ha]. apply elem_of_cons in Ha as [Ha|Ha];
          [discriminate|].
        exfalso. assert (Hs : Some rs' = None) by (apply IH; exists a; exact Ha). discriminate.
      + split; [|reflexivity]. intros _. destruct IH as [IH _].
        destruct (IH eq_refl) as [a Ha]. exists a. apply elem_of_cons. right. exact Ha.
    - split; [|reflexivity]. intros _. exists a. apply elem_of_cons. left. reflexivity. }
  unfold infinite_set_init. split; [|split].
  - intros o Ho. destruct (check_ranges args) as [rs|] eqn:Hr; simpl in Ho; [|discriminate].
    injection Ho as <-. exists rs. split; [apply Hc; reflexivity|]. split; [reflexivity|].
    split; [reflexivity | intros v; reflexivity].
  - intros rs Hrs. apply Hc in Hrs. rewrite Hrs. reflexivity.
  - rewrite <- Hn. destruct (check_ranges args); simpl; split; congruence.
Qed.



Lemma data_sets_comparisons_raise_witness :
  py_eq (SetProtocol0:=Zproto) false (OFinite fs12) (OOrdered os123) = Err AttributeError_ranges /\
  set_isdisjoint (SetProtocol0:=Zproto) (OFinite fs12) (OOrdered os123) = Err AttributeError_ranges /\
  set_issubset (SetProtocol0:=Zproto) (OFinite fs12) (OOrdered os123) = Err AttributeError_ranges /\
  set_issuperset (SetProtocol0:=Zproto) (OFinite fs12) (OOrdered os123) = Err AttributeError_ranges /\
  set_lt (SetProtocol0:=Zproto) false (OFinite fs12) (OOrdered os123) = Err AttributeError_ranges /\
  set_gt (SetProtocol0:=Zproto) false (OFinite fs12) (OOrdered os123) = Err AttributeError_ranges.
Proof.
  exact (data_sets_comparisons_raise sorted_Z insertion_ordering
           (OFinite fs12) (OOrdered os123) eq_refl eq_refl).
Defined.

Lemma infinite_set_init_ranges_witness :
  infinite_set_init (E:=Z) (A:=Z) [inl r01; inl nonneg] = Some (OInfinite [r01; nonneg]) /\
  infinite_set_init (E:=Z) (A:=Z) [inl r01; inr 7] = None.
Proof.
  split.
  - apply (proj1 (proj2 (infinite_set_init_ranges (E:=Z) [inl r01; inl nonneg]))).
    reflexivity.
  - apply (proj2 (proj2 (infinite_set_init_ranges (E:=Z) (A:=Z) [inl r01; inr 7]))).
    exists 7. apply elem_of_cons. right. apply elem_of_cons. left. reflexivity.
Defined.

(** ** Further properties of ordered sets *)

Section OrderedHelpers.
Context {E : Type} `{Countable E}.
Variable sorted_robust : list E -> list E.
Variable ordering : OrderedSetData (E:=E) -> option OrderState.

Lemma ensure_sorted_perm (Hperm : forall l, sorted_robust l ≡ₚ l) (s : OrderedSetData (E:=E)) :
  os_ordered_values (ensure_sorted sorted_robust ordering s) ≡ₚ os_ordered_values s.
Proof.
  unfold ensure_sorted. destruct (data_ok s); [reflexivity|]. unfold sort_.
  destruct (os_is_sorted s) as [st|]; simpl;
    match goal with |- context [decide ?P] => destruct (decide P) end;
    simpl; try reflexivity; apply Hperm.
Qed.

Lemma ensure_sorted_domain (s : OrderedSetData (E:=E)) :
  os_domain (ensure_sorted sorted_robust ordering s) = os_domain s.
Proof.
  unfold ensure_sorted. destruct (data_ok s); [reflexivity|]. unfold sort_.
  destruct (os_is_sorted s) as [st|]; simpl;
    match goal with |- context [decide ?P] => destruct (decide P) end;
    reflexivity.
Qed.

Lemma os_wf_dom (s : OrderedSetData (E:=E)) :
  os_wf s -> dom (os_values s) = list_to_set (C:=gset E) (os_ordered_values s).
Proof.
  intros [_ Hiff]. apply leibniz_equiv. intros x.
  rewrite elem_of_dom, elem_of_list_to_set, list_elem_of_lookup. split.
  - intros [i Hi]. exists i. apply Hiff. exact Hi.
  - intros [i Hi]. exists i. apply Hiff. exact Hi.
Qed.

Lemma getitem_past_last (k : Z) (s : OrderedSetData (E:=E)) :
  os_wf (ensure_sorted sorted_robust ordering s) ->
  Z.of_nat (length (os_ordered_values (ensure_sorted sorted_robust ordering s))) < k ->
  os_getitem sorted_robust ordering k s =
    (ensure_sorted sorted_robust ordering s, [], Err IndexError_past_last).
Proof.
  intros Hwf Hk. unfold os_getitem, os_len_of.
  rewrite (os_wf_size _ Hwf).
  destruct (Z.leb_spec 1 k); [|lia].
  destruct (Z.ltb_spec (Z.of_nat (length (os_ordered_values (ensure_sorted sorted_robust ordering s)))) k);
    [reflexivity | lia].
Qed.

Lemma getitem_zero (s : OrderedSetData (E:=E)) :
  os_getitem sorted_robust ordering 0 s =
    (ensure_sorted sorted_robust ordering s, [], Err IndexError_invalid).
Proof. reflexivity. Qed.

Lemma py_list_get_not_zero_division (l : list E) (i : Z) :
  py_list_get l i <> Err ZeroDivisionError.
Proof.
  unfold py_list_get. destruct (_ <? 0); [discriminate|].
  destruct (l !! _); discriminate.
Qed.

Lemma getitem_not_zero_division (k : Z) (s : OrderedSetData (E:=E)) :
  (os_getitem sorted_robust ordering k s).2 <> Err ZeroDivisionError.
Proof.
  unfold os_getitem. simpl.
  destruct (1 <=? k); [destruct (_ <? k)|destruct (k <? 0); [destruct (_ <? 0)|]];
    try discriminate; apply py_list_get_not_zero_division.
Qed.

End OrderedHelpers.

(** [ord] and [__getitem__] are inverse on a well-formed ordered set: for
    [1 <= i <= len(S)], [S[i]] is an element whose [ord] is [i], and for
    every member [x], [S[S.ord(x)]] is [x]. *)
Theorem getitem_ord_roundtrip {E : Type} `{Countable E}
    (sorted_robust : list E -> list E)
    (ordering : OrderedSetData (E:=E) -> option OrderState)
    (Hperm : forall l, sorted_robust l ≡ₚ l) (s : OrderedSetData (E:=E)) :
  os_wf s ->
  let s' := ensure_sorted sorted_robust ordering s in
  let N := Z.of_nat (length (os_ordered_values s')) in
  (forall i, 1 <= i <= N -> exists x,
     os_getitem sorted_robust ordering i s = (s', [], Ok x) /\
     os_ord sorted_robust ordering x s = (s', [], Ok i)) /\
  (forall x p, os_ord sorted_robust ordering x s = (s', [], Ok p) ->
     os_getitem sorted_robust ordering p s = (s', [], Ok x)).
Proof.
  intros Hwf s' N. subst s' N.
  pose proof (ensure_sorted_wf sorted_robust ordering Hperm s Hwf) as Hwf'.
  split.
  - intros i Hi.
    destruct (getitem_in_range sorted_robust ordering i s Hwf' Hi) as [x [Hx Hget]].
    exists x. split; [exact Hget|].
    rewrite (ord_present sorted_robust ordering x (Z.to_nat (i - 1)) s Hwf' Hx).
    do 3 f_equal. lia.
  - intros x p Hord. unfold os_ord in Hord.
    destruct (os_values (ensure_sorted sorted_robust ordering s) !! x) as [j|] eqn:Hj;
      [|discriminate].
    injection Hord as <-.
    pose proof Hj as Hjx. apply (proj2 Hwf') in Hjx.
    destruct (getitem_in_range sorted_robust ordering (Z.of_nat j + 1) s Hwf') as [y [Hy Hget]].
    { apply lookup_lt_Some in Hjx. lia. }
    replace (Z.to_nat (Z.of_nat j + 1 - 1)) with j in Hy by lia.
    rewrite Hjx in Hy. injection Hy as <-. exact Hget.
Qed.

(** [first()] and [last()] of a well-formed ordered set: on an empty set
    [first()] raises "past the last element" and [last()] raises the
    invalid-index error (it asks for [S[0]]); otherwise they return the first
    and the last element of the (lazily sorted) sequence. *)
Theorem first_last_of_ordered_set {E : Type} `{Countable E}
    (sorted_robust : list E -> list E)
    (ordering : OrderedSetData (E:=E) -> option OrderState)
    (Hperm : forall l, sorted_robust l ≡ₚ l) (s : OrderedSetData (E:=E)) :
  os_wf s ->
  let s' := ensure_sorted sorted_robust ordering s in
  let L := os_ordered_values s' in
  (L = [] -> os_first sorted_robust ordering s = (s', [], Err IndexError_past_last) /\
             os_last sorted_robust ordering s = (s', [], Err IndexError_invalid)) /\
  (forall x, head L = Some x -> os_first sorted_robust ordering s = (s', [], Ok x)) /\
  (forall y, list.last L = Some y -> os_last sorted_robust ordering s = (s', [], Ok y)).
Proof.
  intros Hwf s' L. subst s' L.
  pose proof (ensure_sorted_wf sorted_robust ordering Hperm s Hwf) as Hwf'.
  pose proof (ensure_sorted_perm sorted_robust ordering Hperm s) as Hp.
  apply Permutation_length in Hp.
  assert (Hlen : os_len s = (s, [], Ok (Z.of_nat (length (os_ordered_values
                   (ensure_sorted sorted_robust ordering s)))))).
  { unfold os_len, os_len_of. rewrite (os_wf_size s Hwf), Hp. reflexivity. }
  split; [|split].
  - intros Hnil. unfold os_first, os_last. split.
    + apply getitem_past_last; [exact Hwf' | rewrite Hnil; simpl; lia].
    + unfold st_bind. rewrite Hlen. rewrite Hnil. simpl. reflexivity.
  - intros x Hx. rewrite head_lookup in Hx. unfold os_first.
    destruct (getitem_in_range sorted_robust ordering 1 s Hwf') as [y [Hy Hget]].
    { apply lookup_lt_Some in Hx. lia. }
    change (Z.to_nat (1 - 1)) with 0%nat in Hy. rewrite Hx in Hy. injection Hy as <-. exact Hget.
  - intros y Hy. rewrite last_lookup in Hy. unfold os_last, st_bind. rewrite Hlen.
    set (N := Z.of_nat (length (os_ordered_values (ensure_sorted sorted_robust ordering s)))).
    destruct (getitem_in_range sorted_robust ordering N s Hwf') as [z [Hz Hget]].
    { apply lookup_lt_Some in Hy. unfold N. lia. }
    replace (Z.to_nat (N - 1)) with (pred (length (os_ordered_values
               (ensure_sorted sorted_robust ordering s)))) in Hz by (unfold N; lia).
    rewrite Hy in Hz. injection Hz as <-. rewrite Hget. reflexivity.
Qed.

(** [next(item, step)] on a well-formed ordered set, for [item] at position
    [p]: inside [[1, len(S)]] it returns the element at position [p + step];
    past the end it raises "past the last element"; at position 0 it raises
    the invalid-index error; an absent [item] raises "item not in Set". *)
Theorem next_within_bounds {E : Type} `{Countable E}
    (sorted_robust : list E -> list E)
    (ordering : OrderedSetData (E:=E) -> option OrderState)
    (Hperm : forall l, sorted_robust l ≡ₚ l) (s : OrderedSetData (E:=E)) :
  os_wf s ->
  let s' := ensure_sorted sorted_robust ordering s in
  let L := os_ordered_values s' in
  let N := Z.of_nat (length L) in
  (forall p step item, 1 <= p -> L !! Z.to_nat (p - 1) = Some item ->
     (1 <= p + step <= N -> exists x, L !! Z.to_nat (p + step - 1) = Some x /\
        os_next sorted_robust ordering item step s = (s', [], Ok x)) /\
     (N < p + step ->
        os_next sorted_robust ordering item step s = (s', [], Err IndexError_past_last)) /\
     (p + step = 0 ->
        os_next sorted_robust ordering item step s = (s', [], Err IndexError_invalid))) /\
  (forall item step, item ∉ L ->
     os_next sorted_robust ordering item step s = (s', [], Err IndexError_not_in_set)).
Proof.
  intros Hwf s' L N. subst s' L N.
  pose proof (ensure_sorted_wf sorted_robust ordering Hperm s Hwf) as Hwf'.
  assert (Hs'' : ensure_sorted sorted_robust ordering (ensure_sorted sorted_robust ordering s) =
                 ensure_sorted sorted_robust ordering s) by apply ensure_sorted_idem.
  split.
  - intros p step item Hp Hitem.
    assert (Hnext : os_next sorted_robust ordering item step s =
                    os_getitem sorted_robust ordering (p + step) s).
    { unfold os_next, st_bind.
      rewrite (ord_present sorted_robust ordering item (Z.to_nat (p - 1)) s Hwf' Hitem).
      cbv beta iota. replace (Z.of_nat (Z.to_nat (p - 1)) + 1) with p by lia.
      rewrite <- (getitem_sorted sorted_robust ordering (p + step) s).
      destruct (os_getitem sorted_robust ordering (p + step) _) as [[s2 w2] r]. reflexivity. }
    rewrite Hnext. split; [|split].
    + intros Hr. apply getitem_in_range; assumption.
    + intros Hr. apply getitem_past_last; assumption.
    + intros ->. apply getitem_zero.
  - intros item step Hnin. unfold os_next, st_bind.
    rewrite (ord_absent sorted_robust ordering item s Hwf' Hnin). reflexivity.
Qed.

(** [nextw] and [prevw] never raise [ZeroDivisionError]: the modulus
    [len(self)] is only computed once [ord(item)] has found [item], so the
    set is not empty. *)
Theorem nextw_never_divides_by_zero {E : Type} `{Countable E}
    (sorted_robust : list E -> list E)
    (ordering : OrderedSetData (E:=E) -> option OrderState)
    (s : OrderedSetData (E:=E)) (item : E) (step : Z) :
  (os_nextw sorted_robust ordering item step s).2 <> Err ZeroDivisionError /\
  (os_prevw sorted_robust ordering item step s).2 <> Err ZeroDivisionError.
Proof.
  assert (Hgen : forall st, (os_nextw sorted_robust ordering item st s).2 <> Err ZeroDivisionError).
  { intros st. unfold os_nextw, st_bind, os_ord.
    destruct (os_values (ensure_sorted sorted_robust ordering s) !! item) as [i|] eqn:Hi;
      [|discriminate].
    cbv beta iota. unfold os_len, os_len_of. cbv beta iota.
    destruct (decide _) as [Hz|Hz].
    - exfalso.
      assert (Hne : size (os_values (ensure_sorted sorted_robust ordering s)) <> 0%nat).
      { apply (map_size_ne_0_lookup_2 _ item). rewrite Hi. eauto. }
      lia.
    - pose proof (getitem_not_zero_division sorted_robust ordering
        ((Z.of_nat i + 1 + st - 1) mod Z.of_nat (size (os_values (ensure_sorted sorted_robust ordering s))) + 1)
        (ensure_sorted sorted_robust ordering s)) as Hg.
      destruct (os_getitem _ _ _ _) as [[s2 w2] r]. simpl in *. exact Hg. }
  split; [apply Hgen | unfold os_prevw; apply Hgen].
Qed.

(** Lazy sorting ([if self._is_sorted not in self._DataOK: self._sort()])
    keeps a well-formed set well formed, with the same members, the same
    values as a multiset, the same domain, and is not repeated: a second
    check leaves the set as it is. *)
Theorem lazy_sort_keeps_members {E : Type} `{Countable E}
    (sorted_robust : list E -> list E)
    (ordering : OrderedSetData (E:=E) -> option OrderState)
    (Hperm : forall l, sorted_robust l ≡ₚ l) (s : OrderedSetData (E:=E)) :
  os_wf s ->
  let s' := ensure_sorted sorted_robust ordering s in
  os_wf s' /\ dom (os_values s') = dom (os_values s) /\
  os_ordered_values s' ≡ₚ os_ordered_values s /\ os_domain s' = os_domain s /\
  ensure_sorted sorted_robust ordering s' = s'.
Proof.
  intros Hwf s'. subst s'.
  pose proof (ensure_sorted_wf sorted_robust ordering Hperm s Hwf) as Hwf'.
  pose proof (ensure_sorted_perm sorted_robust ordering Hperm s) as Hp.
  split; [exact Hwf'|]. split; [|split; [exact Hp | split]].
  - rewrite (os_wf_dom _ Hwf'), (os_wf_dom _ Hwf).
    apply leibniz_equiv. intros x. rewrite !elem_of_list_to_set, Hp. reflexivity.
  - apply ensure_sorted_domain.
  - apply ensure_sorted_idem.
Qed.

(** *** [add] *)

Section AddHelpers.
Context {E : Type} `{Countable E}.
Variable flatten_tuple : E -> E.

Lemma os_add_domain (v : E) (s : OrderedSetData (E:=E)) :
  os_domain (os_add flatten_tuple v s).1.1 = os_domain s.
Proof.
  unfold os_add. destruct (domain_rejects _ _); [reflexivity|].
  destruct (decide _); reflexivity.
Qed.

Lemma os_add_is_sorted (v : E) (s : OrderedSetData (E:=E)) :
  os_is_sorted s <> Some Sorted ->
  os_is_sorted (os_add flatten_tuple v s).1.1 = os_is_sorted s.
Proof.
  intros Hs. unfold os_add. destruct (domain_rejects _ _); [reflexivity|].
  destruct (decide _); [reflexivity|]. simpl.
  destruct (decide (os_is_sorted s = Some Sorted)); [contradiction | reflexivity].
Qed.

Lemma os_wf_elem (s : OrderedSetData (E:=E)) (x : E) :
  os_wf s -> x ∈ dom (os_values s) <-> x ∈ os_ordered_values s.
Proof. intros Hwf. rewrite (os_wf_dom s Hwf), elem_of_list_to_set. reflexivity. Qed.

Lemma os_add_all_ordered (vs : list E) (s : OrderedSetData (E:=E)) :
  os_wf s ->
  os_ordered_values (os_add_all flatten_tuple vs s) =
    os_ordered_values s ++ new_in_order (os_ordered_values s)
      (map flatten_tuple (filter (fun v => domain_rejects (os_domain s) v = false) vs)).
Proof.
  revert s; induction vs as [|v vs IH]; intros s Hwf; simpl.
  - rewrite app_nil_r. reflexivity.
  - rewrite IH by (apply os_add_wf, Hwf). rewrite os_add_domain. rewrite filter_cons.
    unfold os_add.
    destruct (domain_rejects (os_domain s) v) eqn:Hd; simpl.
    + destruct (decide (true = false)); [discriminate|]. reflexivity.
    + destruct (decide (false = false)) as [_|]; [|contradiction]. simpl.
      destruct (decide (flatten_tuple v ∈ dom (os_values s))) as [Hin|Hnin]; simpl.
      * apply (os_wf_elem s _ Hwf) in Hin.
        destruct (decide (flatten_tuple v ∈ os_ordered_values s)); [reflexivity|contradiction].
      * rewrite (os_wf_elem s _ Hwf) in Hnin.
        destruct (decide (flatten_tuple v ∈ os_ordered_values s)); [contradiction|].
        rewrite <- app_assoc. reflexivity.
Qed.

Lemma os_add_all_is_sorted (vs : list E) (s : OrderedSetData (E:=E)) :
  os_is_sorted s <> Some Sorted ->
  os_is_sorted (os_add_all flatten_tuple vs s) = os_is_sorted s.
Proof.
  revert s; induction vs as [|v vs IH]; intros s Hs; simpl; [reflexivity|].
  pose proof (os_add_is_sorted v s Hs) as Hv.
  rewrite IH by (rewrite Hv; exact Hs). exact Hv.
Qed.

End AddHelpers.

Section SortHelpers.
Context {E : Type} `{Countable E}.
Variable Rel : relation E.
Variable sorted_robust : list E -> list E.
Variable ordering : OrderedSetData (E:=E) -> option OrderState.
Hypothesis sorted_sorts : forall l, list_sorted Rel (sorted_robust l).

Lemma ensure_sorted_sort_inv (s : OrderedSetData (E:=E)) :
  (forall t, ordering t <> Some Sorted) ->
  sort_inv Rel s -> sort_inv Rel (ensure_sorted sorted_robust ordering s).
Proof.
  intros Hord Hinv. unfold ensure_sorted. destruct (data_ok s); [exact Hinv|].
  unfold sort_. destruct (os_is_sorted s) as [st|] eqn:Hst; simpl.
  - destruct (decide (os_is_sorted s = Some SortNeeded)); simpl.
    + intros _. apply sorted_sorts.
    + exact Hinv.
  - destruct (decide (ordering s = Some SortNeeded)); simpl.
    + intros _. apply sorted_sorts.
    + intros Hs. exfalso. apply (Hord s), Hs.
Qed.

Lemma ensure_sorted_marks_sorted (s : OrderedSetData (E:=E)) :
  (forall t, ordering t = Some SortNeeded) ->
  sort_inv Rel s -> os_is_sorted s <> Some InsertionOrder ->
  os_is_sorted (ensure_sorted sorted_robust ordering s) = Some Sorted /\
  list_sorted Rel (os_ordered_values (ensure_sorted sorted_robust ordering s)).
Proof.
  intros Hord Hinv Hni. unfold ensure_sorted, data_ok.
  destruct (os_is_sorted s) as [[| |]|] eqn:Hst; simpl.
  - contradiction.
  - split; [exact Hst | apply Hinv, Hst].
  - unfold sort_. rewrite Hst. simpl. rewrite Hst.
    destruct (decide (Some SortNeeded = Some SortNeeded)); [|contradiction].
    split; [reflexivity | apply sorted_sorts].
  - unfold sort_. rewrite Hst. simpl. rewrite Hord.
    destruct (decide (Some SortNeeded = Some SortNeeded)); [|contradiction].
    split; [reflexivity | apply sorted_sorts].
Qed.

End SortHelpers.

(** A successful [add(v)] (the domain accepts [v]) keeps the domain, makes
    the set's members its old members plus [flatten(v)], and grows [len] by
    one exactly when [flatten(v)] was not yet a member. *)
Theorem add_updates_members_and_len {E : Type} `{Countable E} (flatten_tuple : E -> E) :
  (forall (s : FiniteSetData (E:=E)) v,
     domain_rejects (fs_domain s) v = false ->
     (fs_add flatten_tuple v s).2 = Ok tt /\
     fs_domain (fs_add flatten_tuple v s).1.1 = fs_domain s /\
     fs_values (fs_add flatten_tuple v s).1.1 = {[flatten_tuple v]} ∪ fs_values s /\
     size (fs_values (fs_add flatten_tuple v s).1.1) =
       (if decide (flatten_tuple v ∈ fs_values s) then size (fs_values s)
        else S (size (fs_values s)))) /\
  (forall (s : OrderedSetData (E:=E)) v,
     domain_rejects (os_domain s) v = false ->
     (os_add flatten_tuple v s).2 = Ok tt /\
     os_domain (os_add flatten_tuple v s).1.1 = os_domain s /\
     dom (os_values (os_add flatten_tuple v s).1.1) = {[flatten_tuple v]} ∪ dom (os_values s) /\
     size (os_values (os_add flatten_tuple v s).1.1) =
       (if decide (flatten_tuple v ∈ dom (os_values s)) then size (os_values s)
        else S (size (os_values s)))).
Proof.
  split.
  - intros s v Hd. unfold fs_add. rewrite Hd. simpl.
    split; [reflexivity|]. split; [reflexivity|]. split; [reflexivity|].
    destruct (decide (flatten_tuple v ∈ fs_values s)) as [Hin|Hnin].
    + f_equal. set_solver.
    + rewrite size_union by set_solver. rewrite size_singleton. lia.
  - intros s v Hd. unfold os_add. rewrite Hd.
    destruct (decide (flatten_tuple v ∈ dom (os_values s))) as [Hin|Hnin]; simpl.
    + repeat split; [set_solver].
    + repeat split.
      * apply dom_insert_L.
      * apply map_size_insert_None. apply not_elem_of_dom. exact Hnin.
Qed.

(** [add] is idempotent: adding the same value twice leaves the set as
    adding it once (whether the first [add] succeeded or raised). *)
Theorem add_twice_same_state {E : Type} `{Countable E} (flatten_tuple : E -> E) :
  (forall (s : FiniteSetData (E:=E)) v,
     (fs_add flatten_tuple v (fs_add flatten_tuple v s).1.1).1.1 =
     (fs_add flatten_tuple v s).1.1) /\
  (forall (s : OrderedSetData (E:=E)) v,
     (os_add flatten_tuple v (os_add flatten_tuple v s).1.1).1.1 =
     (os_add flatten_tuple v s).1.1).
Proof.
  split.
  - intros s v. unfold fs_add.
    destruct (domain_rejects (fs_domain s) v) eqn:Hd; simpl; rewrite Hd; simpl; [reflexivity|].
    f_equal. set_solver.
  - intros s v.
    destruct (domain_rejects (os_domain s) v) eqn:Hd.
    + assert (E1 : (os_add flatten_tuple v s).1.1 = s)
        by (unfold os_add; rewrite Hd; reflexivity).
      rewrite E1. exact E1.
    + destruct (decide (flatten_tuple v ∈ dom (os_values s))) as [Hin|Hnin].
      * assert (E1 : (os_add flatten_tuple v s).1.1 = s).
        { unfold os_add. rewrite Hd. simpl. destruct (decide _); [reflexivity|contradiction]. }
        rewrite E1. exact E1.
      * set (s1 := (os_add flatten_tuple v s).1.1).
        assert (Hd1 : os_domain s1 = os_domain s) by apply os_add_domain.
        assert (Hin1 : flatten_tuple v ∈ dom (os_values s1)).
        { unfold s1, os_add. rewrite Hd. simpl. destruct (decide _); [contradiction|].
          simpl. rewrite dom_insert_L. set_solver. }
        unfold os_add at 1. rewrite Hd1, Hd. simpl.
        destruct (decide _); [reflexivity|contradiction].
Qed.

(** The values of a [_FiniteSetData] after a sequence of [add] calls are the
    flattened values its domain accepted, plus the values it had: the order
    of the calls does not matter, and the domain is unchanged. *)
Theorem finite_set_adds_accumulate {E : Type} `{Countable E} (flatten_tuple : E -> E)
    (vs : list E) (s : FiniteSetData (E:=E)) :
  fs_domain (fs_add_all flatten_tuple vs s) = fs_domain s /\
  fs_values (fs_add_all flatten_tuple vs s) =
    list_to_set (map flatten_tuple
      (filter (fun v => domain_rejects (fs_domain s) v = false) vs)) ∪ fs_values s.
Proof.
  revert s; induction vs as [|v vs IH]; intros s; simpl.
  - split; [reflexivity|]. set_solver.
  - destruct (IH (fs_add flatten_tuple v s).1.1) as [IHd IHv].
    unfold fs_add_all in *. rewrite IHd, IHv. rewrite filter_cons.
    unfold fs_add. destruct (domain_rejects (fs_domain s) v) eqn:Hd; simpl.
    + destruct (decide (true = false)); [discriminate|]. split; reflexivity.
    + destruct (decide (false = false)) as [_|]; [|contradiction]. simpl.
      split; [reflexivity|]. set_solver.
Qed.

(** In an insertion-ordered [_OrderedSetData] whose values are consistent, a
    successful [add] of a new value appends it: it becomes [last()], its
    [ord] is the old length plus one, and the set stays insertion-ordered. *)
Theorem add_new_value_goes_last {E : Type} `{Countable E}
    (sorted_robust : list E -> list E)
    (ordering : OrderedSetData (E:=E) -> option OrderState)
    (flatten_tuple : E -> E) (s : OrderedSetData (E:=E)) (v : E) :
  os_wf s -> os_is_sorted s = Some InsertionOrder ->
  domain_rejects (os_domain s) v = false -> flatten_tuple v ∉ dom (os_values s) ->
  let s1 := (os_add flatten_tuple v s).1.1 in
  os_is_sorted s1 = Some InsertionOrder /\
  os_ordered_values s1 = os_ordered_values s ++ [flatten_tuple v] /\
  os_ord sorted_robust ordering (flatten_tuple v) s1 = (s1, [], Ok (os_len_of s + 1)) /\
  os_last sorted_robust ordering s1 = (s1, [], Ok (flatten_tuple v)).
Proof.
  intros Hwf Hst Hd Hnin s1.
  assert (Hs1 : s1 = {| os_values := <[flatten_tuple v := size (os_values s)]> (os_values s);
                        os_ordered_values := os_ordered_values s ++ [flatten_tuple v];
                        os_is_sorted := Some InsertionOrder;
                        os_domain := os_domain s |}).
  { unfold s1, os_add. rewrite Hd.
    destruct (decide _); [contradiction|]. simpl. rewrite Hst. reflexivity. }
  clearbody s1. subst s1.
  pose proof (os_wf_size s Hwf) as Hsz.
  split; [reflexivity|]. split; [reflexivity|]. split.
  - unfold os_ord, ensure_sorted, data_ok. simpl. rewrite lookup_insert_eq.
    unfold os_len_of. reflexivity.
  - unfold os_last, st_bind, os_len, os_len_of, os_getitem, ensure_sorted, data_ok. simpl.
    rewrite map_size_insert_None by (apply not_elem_of_dom; exact Hnin).
    destruct (Z.leb_spec 1 (Z.of_nat (S (size (os_values s))))); [|lia].
    unfold os_len_of. cbn [os_values].
    rewrite map_size_insert_None by (apply not_elem_of_dom; exact Hnin).
    rewrite Z.ltb_irrefl.
    unfold py_list_get. cbv zeta.
    destruct (Z.ltb_spec (Z.of_nat (S (size (os_values s))) - 1) 0); [lia|].
    destruct (Z.ltb_spec (Z.of_nat (S (size (os_values s))) - 1) 0); [lia|].
    replace (Z.to_nat (Z.of_nat (S (size (os_values s))) - 1))
      with (length (os_ordered_values s)) by lia.
    rewrite lookup_app_r by lia. rewrite Nat.sub_diag. reflexivity.
Qed.

(** For a component that keeps insertion order, [data()] after a sequence
    of [add] calls on a consistent set lists its old values followed by the
    flattened values the domain accepted, each once, in the order of their
    first addition. *)
Theorem insertion_order_data_lists_first_additions {E : Type} `{Countable E}
    (sorted_robust : list E -> list E)
    (ordering : OrderedSetData (E:=E) -> option OrderState)
    (flatten_tuple : E -> E) (s : OrderedSetData (E:=E)) (vs : list E) :
  (forall t, ordering t = Some InsertionOrder) ->
  os_is_sorted s = None \/ os_is_sorted s = Some InsertionOrder ->
  os_wf s ->
  (os_data sorted_robust ordering (os_add_all flatten_tuple vs s)).2 =
    Ok (os_ordered_values s ++ new_in_order (os_ordered_values s)
          (map flatten_tuple (filter (fun v => domain_rejects (os_domain s) v = false) vs))).
Proof.
  intros Hord Hst Hwf.
  rewrite <- (os_add_all_ordered flatten_tuple vs s Hwf).
  assert (Hst' : os_is_sorted (os_add_all flatten_tuple vs s) = os_is_sorted s).
  { apply os_add_all_is_sorted. destruct Hst as [-> | ->]; discriminate. }
  set (t := os_add_all flatten_tuple vs s) in *. clearbody t.
  unfold os_data, ensure_sorted, data_ok. simpl.
  destruct Hst as [Hn|Hi]; rewrite Hst', ?Hn, ?Hi; simpl; [|reflexivity].
  unfold sort_. rewrite Hst', Hn. simpl. rewrite Hord. reflexivity.
Qed.

(** For a component that asks for sorting and a [sorted_robust] that
    returns [Rel]-sorted lists, the invariant "not insertion-ordered, and
    values in order whenever marked [_Sorted]" holds for a new set and is
    kept by [add] and [data()]; under it [data()] returns a sorted list. *)
Theorem sorting_component_data_sorted {E : Type} `{Countable E} (Rel : relation E)
    (sorted_robust : list E -> list E)
    (ordering : OrderedSetData (E:=E) -> option OrderState)
    (flatten_tuple : E -> E) :
  (forall l, list_sorted Rel (sorted_robust l)) ->
  (forall t, ordering t = Some SortNeeded) ->
  (forall d : Domain (E:=E), sort_inv Rel (os_empty d) /\ os_is_sorted (os_empty d) <> Some InsertionOrder) /\
  (forall s v, sort_inv Rel s /\ os_is_sorted s <> Some InsertionOrder ->
     sort_inv Rel (os_add flatten_tuple v s).1.1 /\
     os_is_sorted (os_add flatten_tuple v s).1.1 <> Some InsertionOrder) /\
  (forall s, sort_inv Rel s /\ os_is_sorted s <> Some InsertionOrder ->
     sort_inv Rel (os_data sorted_robust ordering s).1.1 /\
     os_is_sorted (os_data sorted_robust ordering s).1.1 <> Some InsertionOrder) /\
  (forall s, sort_inv Rel s /\ os_is_sorted s <> Some InsertionOrder ->
     exists l, (os_data sorted_robust ordering s).2 = Ok l /\ list_sorted Rel l).
Proof.
  intros Hsorts Hord. split; [|split; [|split]].
  - intros d. split; [intros Hs; discriminate | discriminate].
  - intros s v [Hinv Hni]. unfold os_add.
    destruct (domain_rejects _ _); [split; assumption|].
    destruct (decide _); [split; assumption|]. simpl.
    destruct (decide (os_is_sorted s = Some Sorted)); simpl.
    + split; [intros Hs; discriminate | discriminate].
    + split; [intros Hs; exfalso; apply n0, Hs | exact Hni].
  - intros s [Hinv Hni]. unfold os_data. simpl.
    destruct (ensure_sorted_marks_sorted Rel sorted_robust ordering Hsorts s Hord Hinv Hni)
      as [Hs Hl].
    split; [intros _; exact Hl | rewrite Hs; discriminate].
  - intros s [Hinv Hni]. unfold os_data. simpl.
    destruct (ensure_sorted_marks_sorted Rel sorted_robust ordering Hsorts s Hord Hinv Hni)
      as [Hs Hl].
    eexists. split; [reflexivity | exact Hl].
Qed.

(** [_OrderedSetData.sorted()] returns a [Rel]-sorted permutation of the
    set's values, when [sorted_robust] sorts by [Rel], the owning component
    never reports [_Sorted] by itself, and a set marked [_Sorted] holds its
    values in order. *)
Theorem sorted_returns_sorted_permutation {E : Type} `{Countable E} (Rel : relation E)
    (sorted_robust : list E -> list E)
    (ordering : OrderedSetData (E:=E) -> option OrderState)
    (s : OrderedSetData (E:=E)) :
  (forall l, sorted_robust l ≡ₚ l /\ list_sorted Rel (sorted_robust l)) ->
  (forall t, ordering t <> Some Sorted) ->
  sort_inv Rel s ->
  exists l, (os_sorted sorted_robust ordering s).2 = Ok l /\
    list_sorted Rel l /\ l ≡ₚ os_ordered_values s.
Proof.
  intros Hsr Hord Hinv.
  assert (Hperm : forall l, sorted_robust l ≡ₚ l) by (intros l; apply Hsr).
  assert (Hsorts : forall l, list_sorted Rel (sorted_robust l)) by (intros l; apply Hsr).
  pose proof (ensure_sorted_sort_inv Rel sorted_robust ordering Hsorts s Hord Hinv) as Hinv'.
  pose proof (ensure_sorted_perm sorted_robust ordering Hperm s) as Hp.
  unfold os_sorted, st_bind, os_data. simpl.
  set (s' := ensure_sorted sorted_robust ordering s) in *.
  destruct (decide (os_is_sorted s' = Some Sorted)) as [Hs|Hs].
  - eexists. split; [reflexivity|]. split; [apply Hinv', Hs | exact Hp].
  - eexists. split; [reflexivity|]. split; [apply Hsorts|].
    rewrite Hperm. exact Hp.
Qed.

(** [_OrderedSetData.__init__] builds a consistent set, and [add] and lazy
    sorting keep [_values] and [_ordered_values] consistent: no duplicates,
    and [_values[x] == i] exactly when [_ordered_values[i] == x]. *)
Theorem ordered_set_consistency_kept {E : Type} `{Countable E}
    (sorted_robust : list E -> list E)
    (ordering : OrderedSetData (E:=E) -> option OrderState)
    (flatten_tuple : E -> E) :
  (forall l, sorted_robust l ≡ₚ l) ->
  (forall d : Domain (E:=E), os_wf (os_empty d)) /\
  (forall s v, os_wf s -> os_wf (os_add flatten_tuple v s).1.1) /\
  (forall s, os_wf s -> os_wf (ensure_sorted sorted_robust ordering s)).
Proof.
  intros Hperm. split; [|split].
  - apply os_empty_wf.
  - intros s v. apply os_add_wf.
  - intros s. apply ensure_sorted_wf, Hperm.
Qed.

(** *** Instances of the ordered-set and [add] properties *)

Lemma getitem_ord_roundtrip_witness :
  os_wf os312 /\
  exists x, os_getitem sorted_Z sort_needed_ordering 1 os312 =
              (ensure_sorted sorted_Z sort_needed_ordering os312, [], Ok x) /\
            os_ord sorted_Z sort_needed_ordering x os312 =
              (ensure_sorted sorted_Z sort_needed_ordering os312, [], Ok 1).
Proof.
  assert (Hwf : os_wf os312) by (apply os_add_all_wf, os_empty_wf).
  split; [exact Hwf|].
  destruct (getitem_ord_roundtrip sorted_Z sort_needed_ordering
              (fun l => merge_sort_Permutation _ l) os312 Hwf) as [H1 _].
  apply H1. cbv zeta. split; [lia|]. vm_compute. intros Hc. discriminate Hc.
Defined.

Lemma first_last_of_ordered_set_witness :
  os_first sorted_Z sort_needed_ordering (os_empty Any) =
    (ensure_sorted sorted_Z sort_needed_ordering (os_empty Any), [], Err IndexError_past_last) /\
  os_first sorted_Z sort_needed_ordering os312 =
    (ensure_sorted sorted_Z sort_needed_ordering os312, [], Ok 1) /\
  os_last sorted_Z sort_needed_ordering os312 =
    (ensure_sorted sorted_Z sort_needed_ordering os312, [], Ok 3).
Proof.
  assert (Hwf0 : os_wf (os_empty (E:=Z) Any)) by apply os_empty_wf.
  assert (Hwf : os_wf os312) by (apply os_add_all_wf, os_empty_wf).
  destruct (first_last_of_ordered_set sorted_Z sort_needed_ordering
              (fun l => merge_sort_Permutation _ l) (os_empty Any) Hwf0) as [H0 _].
  destruct (first_last_of_ordered_set sorted_Z sort_needed_ordering
              (fun l => merge_sort_Permutation _ l) os312 Hwf) as [_ [Hf Hl]].
  split; [|split].
  - apply H0. vm_compute. reflexivity.
  - apply Hf. vm_compute. reflexivity.
  - apply Hl. vm_compute. reflexivity.
Defined.

Lemma next_within_bounds_witness :
  os_next sorted_Z sort_needed_ordering 7 1 os312 =
    (ensure_sorted sorted_Z sort_needed_ordering os312, [], Err IndexError_not_in_set) /\
  os_next sorted_Z sort_needed_ordering 1 5 os312 =
    (ensure_sorted sorted_Z sort_needed_ordering os312, [], Err IndexError_past_last) /\
  exists x, os_next sorted_Z sort_needed_ordering 1 1 os312 =
    (ensure_sorted sorted_Z sort_needed_ordering os312, [], Ok x).
Proof.
  assert (Hwf : os_wf os312) by (apply os_add_all_wf, os_empty_wf).
  assert (HL : os_ordered_values (ensure_sorted sorted_Z sort_needed_ordering os312) = [1; 2; 3])
    by (vm_compute; reflexivity).
  destruct (next_within_bounds sorted_Z sort_needed_ordering
              (fun l => merge_sort_Permutation _ l) os312 Hwf) as [Hin Hout].
  cbv zeta in Hin, Hout. rewrite HL in Hin, Hout.
  split; [|split].
  - apply Hout. set_solver.
  - apply (Hin 1 5 1); [lia | reflexivity | simpl; lia].
  - destruct (Hin 1 1 1) as [Hok _]; [lia | reflexivity|].
    destruct Hok as [x [_ Hx]]; [simpl; lia|]. exists x. exact Hx.
Defined.

Lemma nextw_never_divides_by_zero_witness :
  (os_nextw sorted_Z sort_needed_ordering 1 1 (os_empty Any)).2 <> Err ZeroDivisionError /\
  (os_prevw sorted_Z sort_needed_ordering 3 2 os312).2 <> Err ZeroDivisionError.
Proof.
  split.
  - apply (nextw_never_divides_by_zero sorted_Z sort_needed_ordering (os_empty Any) 1 1).
  - apply (nextw_never_divides_by_zero sorted_Z sort_needed_ordering os312 3 2).
Defined.

Lemma lazy_sort_keeps_members_witness :
  os_wf os312 /\
  os_ordered_values (ensure_sorted sorted_Z sort_needed_ordering os312)
    ≡ₚ os_ordered_values os312.
Proof.
  assert (Hwf : os_wf os312) by (apply os_add_all_wf, os_empty_wf).
  split; [exact Hwf|].
  destruct (lazy_sort_keeps_members sorted_Z sort_needed_ordering
              (fun l => merge_sort_Permutation _ l) os312 Hwf) as [_ [_ [Hp _]]].
  exact Hp.
Defined.

Lemma add_updates_members_and_len_witness :
  size (fs_values (fs_add flatten_int 3 fs12).1.1) = 3%nat /\
  size (os_values (os_add flatten_int 4 os123).1.1) = 4%nat.
Proof.
  destruct (add_updates_members_and_len flatten_int) as [Hf Ho].
  split.
  - destruct (Hf fs12 3 eq_refl) as [_ [_ [_ Hs]]]. rewrite Hs. vm_compute. reflexivity.
  - destruct (Ho os123 4 eq_refl) as [_ [_ [_ Hs]]]. rewrite Hs. vm_compute. reflexivity.
Defined.

Lemma add_new_value_goes_last_witness :
  let s := ensure_sorted sorted_Z insertion_ordering os123 in
  os_last sorted_Z insertion_ordering (os_add flatten_int 4 s).1.1 =
    ((os_add flatten_int 4 s).1.1, [], Ok 4).
Proof.
  intros s.
  assert (Hwf : os_wf s).
  { apply ensure_sorted_wf; [intros l; apply merge_sort_Permutation|].
    apply os_add_all_wf, os_empty_wf. }
  assert (Hst : os_is_sorted s = Some InsertionOrder) by (vm_compute; reflexivity).
  assert (Hd : domain_rejects (os_domain s) 4 = false) by (vm_compute; reflexivity).
  assert (Hnin : flatten_int 4 ∉ dom (os_values s))
    by (rewrite not_elem_of_dom; vm_compute; reflexivity).
  destruct (add_new_value_goes_last sorted_Z insertion_ordering flatten_int s 4
              Hwf Hst Hd Hnin) as [_ [_ [_ Hl]]].
  exact Hl.
Defined.

Lemma insertion_order_data_lists_first_additions_witness :
  (os_data sorted_Z insertion_ordering
     (os_add_all flatten_int [2; 1; 2; 3] (os_empty Any))).2 = Ok [2; 1; 3].
Proof.
  rewrite (insertion_order_data_lists_first_additions sorted_Z insertion_ordering flatten_int
             (os_empty Any) [2; 1; 2; 3] (fun _ => eq_refl) (or_introl eq_refl)
             (ltac:(apply os_empty_wf))).
  vm_compute. reflexivity.
Defined.

Lemma sorting_component_data_sorted_witness :
  exists l, (os_data sorted_Z sort_needed_ordering os312).2 = Ok l /\ list_sorted Z.le l.
Proof.
  destruct (sorting_component_data_sorted Z.le sorted_Z sort_needed_ordering flatten_int
              (fun l => Sorted_merge_sort _ l) (fun _ => eq_refl)) as [He [Ha [_ Hd]]].
  apply Hd. unfold os312, os_add_all. cbn [fold_left].
  apply Ha, Ha, Ha, He.
Defined.

Lemma sorted_returns_sorted_permutation_witness :
  exists l, (os_sorted sorted_Z insertion_ordering os312).2 = Ok l /\
    list_sorted Z.le l /\ l ≡ₚ os_ordered_values os312.
Proof.
  assert (Hsr : forall l, sorted_Z l ≡ₚ l /\ list_sorted Z.le (sorted_Z l)).
  { intros l. split; [apply merge_sort_Permutation | exact (Sorted_merge_sort _ l)]. }
  assert (Hord : forall t, insertion_ordering (E:=Z) t <> Some Sorted).
  { intros t Hc. unfold insertion_ordering in Hc. discriminate Hc. }
  assert (Hinv : sort_inv Z.le os312).
  { intros Hs. vm_compute in Hs. discriminate Hs. }
  exact (sorted_returns_sorted_permutation Z.le sorted_Z insertion_ordering os312 Hsr Hord Hinv).
Defined.

Lemma ordered_set_consistency_kept_witness :
  os_wf (ensure_sorted sorted_Z sort_needed_ordering os312).
Proof.
  destruct (ordered_set_consistency_kept sorted_Z sort_needed_ordering flatten_int
              (fun l => merge_sort_Permutation _ l)) as [He [Ha Hs]].
  apply Hs. unfold os312, os_add_all. cbn [fold_left].
  apply Ha, Ha, Ha, He.
Defined.
